(** * audio_pipeline.py: a shallow embedding of the configurable audio pipeline

    The pipeline of [src/audio_pipeline.py] loads audio files, combines them
    (overlay or concatenation), applies a chain of effects and exports the
    result.  It is an orchestration layer over the [pydub] library, the
    [yaml] parser and the file system.

    Layout of this development:
    - Python values: exceptions, outcomes, [dict.get], [os.path.join];
    - the part of [pydub.AudioSegment] that is integer arithmetic on raw
      bytes ([__len__], truthiness, [_spawn], [__add__], [__mul__], [_sync]);
    - the configuration document, and the environment [Env]: the file
      system, the YAML reader, the codec and pydub's signal processing, each
      an operation that returns or raises;
    - the trace of a run and the state-and-exception monad [M] the methods of
      [AudioPipeline] run in;
    - the methods themselves, in source order, and [main];
    - a concrete environment, [Studio], for closed examples;
    - the theorems. *)

From Stdlib Require Import List ZArith String Ascii Bool Lia QArith.
From Stdlib.Strings Require Import Byte.
Import ListNotations.
Open Scope Z_scope.

(* ------------------------------------------------------------------------- *)
(** ** Python values the pipeline touches *)

(** The exceptions that can travel through the pipeline.  All of them are
    instances of Python's [Exception], so [except Exception] catches each. *)
Inductive exn : Type :=
| FileNotFoundError
| YAMLError
| AttributeError
| TypeError
| ZeroDivisionError
| ValueError
| LibraryError (what : string).

(** The outcome of a Python call: a returned value or a raised exception. *)
Inductive outcome (A : Type) : Type :=
| Returns (a : A)
| Raises (e : exn).
Arguments Returns {A} a.
Arguments Raises {A} e.

Definition outcome_bind {A B} (o : outcome A) (k : A -> outcome B) : outcome B :=
  match o with
  | Returns a => k a
  | Raises e => Raises e
  end.

(** [d.get(key, default)] for a key that is either present or absent. *)
Definition dict_get {A} (entry : option A) (default : A) : A :=
  match entry with
  | Some v => v
  | None => default
  end.

(** [os.path.join(a, b)] of [posixpath]. *)
Definition starts_with_sep (b : string) : bool :=
  match b with
  | String c _ => Ascii.eqb c "/"
  | EmptyString => false
  end.

Fixpoint ends_with_sep (a : string) : bool :=
  match a with
  | EmptyString => false
  | String c EmptyString => Ascii.eqb c "/"
  | String _ rest => ends_with_sep rest
  end.

Definition path_join (a b : string) : string :=
  if starts_with_sep b then b
  else if String.eqb a "" || ends_with_sep a then (a ++ b)%string
  else (a ++ "/" ++ b)%string.

(** Truthiness of a Python list. *)
Definition nonempty {A} (l : list A) : bool :=
  match l with
  | [] => false
  | _ :: _ => true
  end.

(** [bytes * n]: the bytes repeated [n] times, empty for [n <= 0]. *)
Definition bytes_mul (data : list byte) (n : Z) : list byte :=
  List.concat (repeat data (Z.to_nat n)).

(** Python's [round] on a quotient [p / q] with [q > 0]: to the nearest
    integer, a tie going to the even neighbour. *)
Definition round_half_even (p q : Z) : Z :=
  let f := p / q in
  match 2 * (p mod q) ?= q with
  | Lt => f
  | Gt => f + 1
  | Eq => if Z.even f then f else f + 1
  end.

(* ------------------------------------------------------------------------- *)
(** ** The pydub audio segment *)

(** [pydub.AudioSegment]: raw PCM bytes and the format that reads them. *)
Record AudioSegment : Type := mkSegment {
  _data : list byte;
  sample_width : Z;
  frame_rate : Z;
  channels : Z
}.

Definition frame_width (seg : AudioSegment) : Z :=
  channels seg * sample_width seg.

(** [seg.frame_count()]: [len(self._data) // self.frame_width]. *)
Definition frame_count (seg : AudioSegment) : Z :=
  Z.of_nat (List.length (_data seg)) / frame_width seg.

(** The binary64 number nearest to the quotient [p / q] of two integers
    ([q > 0]), as an exact fraction (numerator, denominator): the quotient is
    scaled by the power of two that brings it into [[2^52, 2^53)], rounded to
    an integer significand with ties to even, and scaled back.  The exponent
    range is not bounded here, so the value is the one of binary64 whenever
    that neither overflows nor underflows (magnitudes from [2^-1022] up to
    [2^1024]). *)
Definition round53 (p q : Z) : Z * Z :=
  if p =? 0 then (0, 1)
  else
    let a := Z.abs p in
    let k := Z.log2 a - Z.log2 q in
    let below := if 0 <=? k then a <? q * 2 ^ k else a * 2 ^ (- k) <? q in
    let e := (if below then k - 1 else k) - 52 in
    if 0 <=? e
    then (Z.sgn p * round_half_even a (q * 2 ^ e) * 2 ^ e, 1)
    else (Z.sgn p * round_half_even (a * 2 ^ (- e)) q, 2 ^ (- e)).

(** [round(1000 * (float(frames) / rate))] as Python evaluates it: both
    integers converted to binary64, the division and the product by 1000
    each rounded to binary64, and [round] taking the nearest integer of that
    double, ties to even. *)
Definition float_ms (frames rate : Z) : Z :=
  let '(fn, fd) := round53 frames 1 in
  let '(rn, rd) := round53 rate 1 in
  let p := fn * rd in
  let q := fd * rn in
  let '(dn, dd) := if q <? 0 then round53 (- p) (- q) else round53 p q in
  let '(yn, yd) := round53 (1000 * dn) dd in
  round_half_even yn yd.

(** The value of [round(1000 * (self.frame_count() / self.frame_rate))]. *)
Definition milliseconds (seg : AudioSegment) : Z :=
  float_ms (frame_count seg) (frame_rate seg).

(** [__len__] on a frame count and a frame rate: the division raises on a
    zero rate, and Python refuses a negative [__len__]. *)
Definition len_of_frames (frames rate : Z) : outcome Z :=
  if rate =? 0 then Raises ZeroDivisionError
  else if float_ms frames rate <? 0 then Raises ValueError
  else Returns (float_ms frames rate).

(** [len(seg)], i.e. [AudioSegment.__len__]: the duration in milliseconds.
    The floor division by the frame width raises on zero too. *)
Definition py_len (seg : AudioSegment) : outcome Z :=
  if frame_width seg =? 0 then Raises ZeroDivisionError
  else len_of_frames (frame_count seg) (frame_rate seg).

(** [bool(seg)]: [AudioSegment] defines [__len__] and no [__bool__], so a
    segment is true exactly when its millisecond length is not zero. *)
Definition py_bool (seg : AudioSegment) : outcome bool :=
  outcome_bind (py_len seg) (fun n => Returns (negb (n =? 0))).

(** Truthiness of a variable that holds [None] or a segment. *)
Definition truthy (v : option AudioSegment) : outcome bool :=
  match v with
  | None => Returns false
  | Some seg => py_bool seg
  end.

(** [seg._spawn(data)]: a new segment with the format of [seg]. *)
Definition _spawn (seg : AudioSegment) (data : list byte) : AudioSegment :=
  mkSegment data (sample_width seg) (frame_rate seg) (channels seg).

(** [seg._spawn(data, overrides={'frame_rate': rate})]. *)
Definition _spawn_frame_rate (seg : AudioSegment) (data : list byte) (rate : Z)
  : AudioSegment :=
  mkSegment data (sample_width seg) rate (channels seg).

(** [seg * n] for an integer [n]: [self._spawn(data=(self._data * n))]. *)
Definition mul_int (seg : AudioSegment) (n : Z) : AudioSegment :=
  _spawn seg (bytes_mul (_data seg) n).

(* ------------------------------------------------------------------------- *)
(** ** The configuration document *)

(** One entry of the [effects] list: a mapping with a [type] key and the
    parameters of that effect.  A key is [None] when the mapping lacks it.
    Numeric parameters are the rationals their YAML literals denote; [times]
    is an integer. *)
Record Effect : Type := mkEffect {
  e_type : option string;
  e_gain : option Q;
  e_factor : option Q;
  e_fade_in : option Q;
  e_fade_out : option Q;
  e_headroom : option Q;
  e_times : option Z
}.

(** The mapping [yaml.safe_load] returns for a well-typed configuration
    file: every recognised key, [None] when the file leaves it out. *)
Record Config : Type := mkConfig {
  input_folder : option string;
  output_folder : option string;
  output_name : option string;
  output_formats : option (list string);
  mix_files : option (list string);
  concatenate_files : option (list string);
  audio_files : option (list string);
  combine_method : option string;
  final_combine_method : option string;
  effects : option (list Effect)
}.

(** What a YAML file can hold at its top level. *)
Inductive yaml_document : Type :=
| EmptyDocument
| MappingDocument (c : Config)
| OtherDocument.

(** The Python object [self.config] is bound to. *)
Inductive pyconfig : Type :=
| PyNone
| PyDict (c : Config)
| PyOther.

(** [yaml.safe_load]: an empty document loads as [None], a mapping as a
    [dict], a scalar or a sequence as an object without [get]. *)
Definition safe_load (doc : yaml_document) : pyconfig :=
  match doc with
  | EmptyDocument => PyNone
  | MappingDocument c => PyDict c
  | OtherDocument => PyOther
  end.

(* ------------------------------------------------------------------------- *)
(** ** The environment *)

(** The calls that leave this file's arithmetic: the file system, the YAML
    reader, the decoder and encoder, and pydub's signal processing (built on
    [audioop] and floating point).  Each may return or raise. *)
Record Env : Type := mkEnv {
  (** [os.path.exists(path)] *)
  path_exists : string -> bool;
  (** [open(path)] followed by a YAML parse of the content *)
  read_yaml : string -> outcome yaml_document;
  (** [AudioSegment.from_file(path)] *)
  from_file : string -> outcome AudioSegment;
  (** [os.makedirs(path)] *)
  makedirs : string -> outcome unit;
  (** [seg.export(path, format=fmt, bitrate=b)] *)
  export : AudioSegment -> string -> string -> option string -> outcome unit;
  (** [seg.overlay(other)], position 0, no loop *)
  overlay : AudioSegment -> AudioSegment -> outcome AudioSegment;
  (** [seg.apply_gain(db)] *)
  apply_gain : AudioSegment -> Q -> outcome AudioSegment;
  (** [int(rate * factor)] in Python's arithmetic *)
  int_scaled : Z -> Q -> outcome Z;
  (** [audioop.ratecv] behind [set_frame_rate] *)
  resample : AudioSegment -> Z -> outcome AudioSegment;
  (** [audioop.tomono] / [tostereo] behind [set_channels] *)
  remix_channels : AudioSegment -> Z -> outcome AudioSegment;
  (** [audioop.lin2lin] behind [set_sample_width] *)
  resize_samples : AudioSegment -> Z -> outcome AudioSegment;
  (** [seg.fade_in(ms)], [seg.fade_out(ms)] *)
  fade_in : AudioSegment -> Q -> outcome AudioSegment;
  fade_out : AudioSegment -> Q -> outcome AudioSegment;
  (** [seg.reverse()] *)
  reverse : AudioSegment -> outcome AudioSegment;
  (** [pydub.effects.normalize(seg, headroom=h)] *)
  normalize : AudioSegment -> Q -> outcome AudioSegment
}.

Section Pydub.

Variable env : Env.

(** [seg.set_channels(n)], [seg.set_frame_rate(r)], [seg.set_sample_width(w)]:
    each returns [self] when the format already matches and converts
    otherwise. *)
Definition set_channels (seg : AudioSegment) (n : Z) : outcome AudioSegment :=
  if n =? channels seg then Returns seg else remix_channels env seg n.

Definition set_frame_rate (seg : AudioSegment) (r : Z) : outcome AudioSegment :=
  if r =? frame_rate seg then Returns seg else resample env seg r.

Definition set_sample_width (seg : AudioSegment) (w : Z) : outcome AudioSegment :=
  if w =? sample_width seg then Returns seg else resize_samples env seg w.

(** One segment of [AudioSegment._sync]:
    [seg.set_channels(c).set_frame_rate(r).set_sample_width(w)]. *)
Definition sync_to (c r w : Z) (seg : AudioSegment) : outcome AudioSegment :=
  outcome_bind (set_channels seg c) (fun s1 =>
  outcome_bind (set_frame_rate s1 r) (fun s2 =>
  set_sample_width s2 w)).

(** [AudioSegment._sync(seg1, seg2)]: both segments brought to the largest
    channel count, frame rate and sample width of the two. *)
Definition _sync (seg1 seg2 : AudioSegment)
  : outcome (AudioSegment * AudioSegment) :=
  let c := Z.max (channels seg1) (channels seg2) in
  let r := Z.max (frame_rate seg1) (frame_rate seg2) in
  let w := Z.max (sample_width seg1) (sample_width seg2) in
  outcome_bind (sync_to c r w seg1) (fun s1 =>
  outcome_bind (sync_to c r w seg2) (fun s2 =>
  Returns (s1, s2))).

(** [seg1 + seg2], i.e. [seg1.append(seg2, crossfade=0)]:
    [seg1._spawn(seg1._data + seg2._data)] after [_sync]. *)
Definition append (seg1 seg2 : AudioSegment) : outcome AudioSegment :=
  outcome_bind (_sync seg1 seg2) (fun '(s1, s2) =>
  Returns (_spawn s1 (_data s1 ++ _data s2))).

End Pydub.

(* ------------------------------------------------------------------------- *)
(** ** What a run leaves behind *)

Inductive level : Type := INFO | WARNING | ERROR.

(** One constructor per [logger] call of the source, with the values its
    format string interpolates. *)
Inductive message : Type :=
| MsgConfigLoaded (config_file : string)
| MsgConfigMissing (config_file : string)
| MsgYamlError
| MsgInputFolderMissing (folder : string)
| MsgMixFileLoaded (audio_file : string) (ms hz : Z)
| MsgConcatFileLoaded (audio_file : string) (ms hz : Z)
| MsgFileLoaded (audio_file : string) (ms hz : Z)
| MsgLoadError (audio_file : string) (e : exn)
| MsgVolume (gain : Q)
| MsgSpeed (factor : Q)
| MsgFadeIn (ms : Q)
| MsgFadeOut (ms : Q)
| MsgReverse
| MsgNormalize (headroom : Q)
| MsgRepeat (times : Z)
| MsgNothingToMix
| MsgMixing (n : nat)
| MsgNothingToConcatenate
| MsgConcatenating (n : nat)
| MsgUnknownEffect (effect_type : option string)
| MsgOutputFolderCreated (folder : string)
| MsgFileSaved (path : string)
| MsgSaveError (fmt : string) (e : exn)
| MsgBanner
| MsgStart
| MsgRunMixing (n : nat)
| MsgRunConcatenating (n : nat)
| MsgNothingLoaded
| MsgFinished
| MsgUsingConfig (config_file : string)
| MsgFatal (e : exn).

(** The observable actions of a run, in the order they happen. *)
Inductive event : Type :=
| Log (l : level) (m : message)
| Decode (path : string)
| Makedirs (path : string)
| ExportCall (audio : AudioSegment) (path fmt : string) (bitrate : option string).

(** The fields of an [AudioPipeline] object, and the trace of the process. *)
Record Pipeline : Type := mkPipeline {
  config : pyconfig;
  audio_segments : list AudioSegment;
  mix_segments : list AudioSegment;
  concatenate_segments : list AudioSegment;
  result : option AudioSegment;
  trace : list event
}.

(** The three lists of loaded segments an [AudioPipeline] keeps. *)
Inductive collection : Type :=
| AudioSegments
| MixSegments
| ConcatenateSegments.

Definition collection_eqb (a b : collection) : bool :=
  match a, b with
  | AudioSegments, AudioSegments
  | MixSegments, MixSegments
  | ConcatenateSegments, ConcatenateSegments => true
  | _, _ => false
  end.

Definition segments (which : collection) (s : Pipeline) : list AudioSegment :=
  match which with
  | AudioSegments => audio_segments s
  | MixSegments => mix_segments s
  | ConcatenateSegments => concatenate_segments s
  end.

(** The process before any [AudioPipeline] exists. *)
Definition boot : Pipeline := mkPipeline PyNone [] [] [] None [].

Definition record_event (e : event) (s : Pipeline) : Pipeline :=
  mkPipeline (config s) (audio_segments s) (mix_segments s)
             (concatenate_segments s) (result s) (trace s ++ [e]).

Definition with_result (r : option AudioSegment) (s : Pipeline) : Pipeline :=
  mkPipeline (config s) (audio_segments s) (mix_segments s)
             (concatenate_segments s) r (trace s).

Definition is_write (e : event) : bool :=
  match e with
  | Makedirs _ | ExportCall _ _ _ _ => true
  | Log _ _ | Decode _ => false
  end.

(** The file-system writes of a trace: directory creations and exports. *)
Definition writes (tr : list event) : list event := filter is_write tr.

(** The paths handed to the decoder, in order. *)
Fixpoint decodes (tr : list event) : list string :=
  match tr with
  | [] => []
  | Decode p :: rest => p :: decodes rest
  | _ :: rest => decodes rest
  end.

(* ------------------------------------------------------------------------- *)
(** ** The monad of the methods: state, and exceptions that keep the state *)

Definition M (A : Type) : Type := Pipeline -> outcome A * Pipeline.

Definition ret {A} (a : A) : M A := fun s => (Returns a, s).

Definition bind {A B} (c : M A) (k : A -> M B) : M B :=
  fun s =>
    match c s with
    | (Returns a, s') => k a s'
    | (Raises e, s') => (Raises e, s')
    end.

Notation "x <- c1 ;; c2" := (bind c1 (fun x => c2))
  (at level 61, c1 at next level, right associativity).
Notation "c1 ;; c2" := (bind c1 (fun _ => c2))
  (at level 61, right associativity).

Definition raise {A} (e : exn) : M A := fun s => (Raises e, s).

Definition lift {A} (o : outcome A) : M A := fun s => (o, s).

(** [try: body  except Exception as e: handler e]. *)
Definition try_except {A} (body : M A) (handler : exn -> M A) : M A :=
  fun s =>
    match body s with
    | (Returns a, s') => (Returns a, s')
    | (Raises e, s') => handler e s'
    end.

Definition self : M Pipeline := fun s => (Returns s, s).

Definition emit (e : event) : M unit := fun s => (Returns tt, record_event e s).

Definition log (l : level) (m : message) : M unit := emit (Log l m).

Definition set_result (r : option AudioSegment) : M unit :=
  fun s => (Returns tt, with_result r s).

(** [self.config.get(key, default)]: an [AttributeError] unless
    [self.config] is a [dict]. *)
Definition config_get {A} (key : Config -> option A) (default : A) : M A :=
  fun s =>
    match config s with
    | PyDict c => (Returns (dict_get (key c) default), s)
    | PyNone | PyOther => (Raises AttributeError, s)
    end.

(** [for x in xs: body x]. *)
Fixpoint for_each {A} (xs : list A) (body : A -> M unit) : M unit :=
  match xs with
  | [] => ret tt
  | x :: rest => body x ;; for_each rest body
  end.

(** The segment a variable holds, for a use that [None] cannot serve: a
    method call on [None] raises [AttributeError], an addition [TypeError]. *)
Definition seg_of (on_none : exn) (v : option AudioSegment)
  : outcome AudioSegment :=
  match v with
  | Some seg => Returns seg
  | None => Raises on_none
  end.

(* ------------------------------------------------------------------------- *)
(** ** class AudioPipeline *)

Section AudioPipeline.

Variable env : Env.

(** [load_config] (lines 34-54). *)
Definition load_config (config_file : string) : M pyconfig :=
  try_except
    (doc <- lift (read_yaml env config_file) ;;
     log INFO (MsgConfigLoaded config_file) ;;
     ret (safe_load doc))
    (fun e =>
       match e with
       | FileNotFoundError =>
           log ERROR (MsgConfigMissing config_file) ;; raise e
       | YAMLError =>
           log ERROR MsgYamlError ;; raise e
       | _ => raise e
       end).

(** [__init__] (lines 21-32). *)
Definition __init__ (config_file : string) : M unit :=
  c <- load_config config_file ;;
  fun s => (Returns tt, mkPipeline c [] [] [] None (trace s)).

(** [self.<which>.append(audio)] for one of the three collections. *)
Definition push (which : collection) (audio : AudioSegment) : M unit :=
  fun s =>
    (Returns tt,
     match which with
     | AudioSegments =>
         mkPipeline (config s) (audio_segments s ++ [audio]) (mix_segments s)
                    (concatenate_segments s) (result s) (trace s)
     | MixSegments =>
         mkPipeline (config s) (audio_segments s) (mix_segments s ++ [audio])
                    (concatenate_segments s) (result s) (trace s)
     | ConcatenateSegments =>
         mkPipeline (config s) (audio_segments s) (mix_segments s)
                    (concatenate_segments s ++ [audio]) (result s) (trace s)
     end).

(** The body the three loops of [load_audio_files] share: decode, append to
    the loop's collection, log the length; any exception is logged and the
    loop goes on. *)
Definition load_one (input_folder : string)
    (which : collection) (loaded : string -> Z -> Z -> message)
    (audio_file : string) : M unit :=
  let file_path := path_join input_folder audio_file in
  try_except
    (emit (Decode file_path) ;;
     audio <- lift (from_file env file_path) ;;
     push which audio ;;
     ms <- lift (py_len audio) ;;
     log INFO (loaded audio_file ms (frame_rate audio)))
    (fun e => log ERROR (MsgLoadError audio_file e)).

(** [load_audio_files] (lines 56-99). *)
Definition load_audio_files : M unit :=
  input_folder <- config_get input_folder "input_audio"%string ;;
  (if negb (path_exists env input_folder)
   then log ERROR (MsgInputFolderMissing input_folder) ;;
        raise FileNotFoundError
   else ret tt) ;;
  mix_files <- config_get mix_files [] ;;
  for_each mix_files (load_one input_folder MixSegments MsgMixFileLoaded) ;;
  concatenate_files <- config_get concatenate_files [] ;;
  for_each concatenate_files
           (load_one input_folder ConcatenateSegments MsgConcatFileLoaded) ;;
  audio_files <- config_get audio_files [] ;;
  if nonempty audio_files && negb (nonempty mix_files)
     && negb (nonempty concatenate_files)
  then for_each audio_files (load_one input_folder AudioSegments MsgFileLoaded)
  else ret tt.

(** [apply_volume_effect] (lines 101-114): [audio + gain] with a number is
    [apply_gain]. *)
Definition apply_volume_effect (audio : AudioSegment) (params : Effect)
  : M AudioSegment :=
  let gain := dict_get (e_gain params) 0%Q in
  log INFO (MsgVolume gain) ;;
  lift (apply_gain env audio gain).

(** [apply_speed_effect] (lines 116-134). *)
Definition apply_speed_effect (audio : AudioSegment) (params : Effect)
  : M AudioSegment :=
  let factor := dict_get (e_factor params) 1%Q in
  log INFO (MsgSpeed factor) ;;
  rate <- lift (int_scaled env (frame_rate audio) factor) ;;
  let sound_with_altered_frame_rate :=
    _spawn_frame_rate audio (_data audio) rate in
  lift (set_frame_rate env sound_with_altered_frame_rate (frame_rate audio)).

(** [apply_fade_effect] (lines 136-158). *)
Definition apply_fade_effect (audio : AudioSegment) (params : Effect)
  : M AudioSegment :=
  let fade_in_ms := dict_get (e_fade_in params) 0%Q in
  let fade_out_ms := dict_get (e_fade_out params) 0%Q in
  result1 <- (if negb (Qle_bool fade_in_ms 0)
              then r <- lift (fade_in env audio fade_in_ms) ;;
                   log INFO (MsgFadeIn fade_in_ms) ;; ret r
              else ret audio) ;;
  if negb (Qle_bool fade_out_ms 0)
  then r <- lift (fade_out env result1 fade_out_ms) ;;
       log INFO (MsgFadeOut fade_out_ms) ;; ret r
  else ret result1.

(** [apply_reverse_effect] (lines 160-172). *)
Definition apply_reverse_effect (audio : AudioSegment) (params : Effect)
  : M AudioSegment :=
  log INFO MsgReverse ;;
  lift (reverse env audio).

(** [apply_normalize_effect] (lines 174-187). *)
Definition apply_normalize_effect (audio : AudioSegment) (params : Effect)
  : M AudioSegment :=
  let headroom := dict_get (e_headroom params) (1 # 10)%Q in
  log INFO (MsgNormalize headroom) ;;
  lift (normalize env audio headroom).

(** [apply_repeat_effect] (lines 189-202). *)
Definition apply_repeat_effect (audio : AudioSegment) (params : Effect)
  : M AudioSegment :=
  let times := dict_get (e_times params) 1 in
  log INFO (MsgRepeat times) ;;
  ret (mul_int audio times).

(** [mixed = first; for audio in rest: mixed = mixed.overlay(audio)]. *)
Fixpoint overlay_loop (mixed : AudioSegment) (rest : list AudioSegment)
  : outcome AudioSegment :=
  match rest with
  | [] => Returns mixed
  | audio :: more =>
      outcome_bind (overlay env mixed audio) (fun m => overlay_loop m more)
  end.

(** [result = first; for audio in rest: result += audio]. *)
Fixpoint concatenate_loop (result : AudioSegment) (rest : list AudioSegment)
  : outcome AudioSegment :=
  match rest with
  | [] => Returns result
  | audio :: more =>
      outcome_bind (append env result audio) (fun r => concatenate_loop r more)
  end.

(** [mix_audio_files] (lines 204-224). *)
Definition mix_audio_files : M (option AudioSegment) :=
  s <- self ;;
  match audio_segments s with
  | [] => log WARNING MsgNothingToMix ;; ret None
  | first :: rest =>
      log INFO (MsgMixing (List.length (audio_segments s))) ;;
      mixed <- lift (overlay_loop first rest) ;;
      ret (Some mixed)
  end.

(** [concatenate_audio_files] (lines 226-243). *)
Definition concatenate_audio_files : M (option AudioSegment) :=
  s <- self ;;
  match audio_segments s with
  | [] => log WARNING MsgNothingToConcatenate ;; ret None
  | first :: rest =>
      log INFO (MsgConcatenating (List.length (audio_segments s))) ;;
      result <- lift (concatenate_loop first rest) ;;
      ret (Some result)
  end.

(** The dictionary [effect_functions] of [apply_effects] (lines 259-266). *)
Definition effect_functions
  : list (string * (AudioSegment -> Effect -> M AudioSegment)) :=
  [ ("volume"%string, apply_volume_effect);
    ("speed"%string, apply_speed_effect);
    ("fade"%string, apply_fade_effect);
    ("reverse"%string, apply_reverse_effect);
    ("normalize"%string, apply_normalize_effect);
    ("repeat"%string, apply_repeat_effect) ].

Fixpoint dict_lookup {V} (key : string) (d : list (string * V)) : option V :=
  match d with
  | [] => None
  | (k, v) :: rest => if String.eqb key k then Some v else dict_lookup key rest
  end.

(** [effect_functions[effect_type]] when [effect_type in effect_functions];
    the value [None] of a missing [type] key is in no dictionary of
    strings. *)
Definition effect_function (effect_type : option string)
  : option (AudioSegment -> Effect -> M AudioSegment) :=
  match effect_type with
  | Some name => dict_lookup name effect_functions
  | None => None
  end.

(** One turn of the loop of [apply_effects] (lines 269-273). *)
Definition effect_step (result : AudioSegment) (effect : Effect)
  : M AudioSegment :=
  let effect_type := e_type effect in
  match effect_function effect_type with
  | Some f => f result effect
  | None => log WARNING (MsgUnknownEffect effect_type) ;; ret result
  end.

(** The loop of [apply_effects] (lines 268-275). *)
Fixpoint effects_loop (effects : list Effect) (result : AudioSegment)
  : M AudioSegment :=
  match effects with
  | [] => ret result
  | effect :: rest =>
      result' <- effect_step result effect ;;
      effects_loop rest result'
  end.

(** [apply_effects] (lines 245-275). *)
Definition apply_effects (audio : AudioSegment) : M AudioSegment :=
  effects <- config_get effects [] ;;
  effects_loop effects audio.

(** [audio.export(...)]: the call is traced, then succeeds or raises. *)
Definition export_call (audio : AudioSegment) (path fmt : string)
    (bitrate : option string) : M unit :=
  emit (ExportCall audio path fmt bitrate) ;;
  lift (export env audio path fmt bitrate).

(** [save_audio] (lines 277-306). *)
Definition save_audio (audio : AudioSegment) (output_name : string) : M unit :=
  output_folder <- config_get output_folder "output_audio"%string ;;
  output_formats <- config_get output_formats ["mp3"; "wav"]%string ;;
  (if negb (path_exists env output_folder)
   then emit (Makedirs output_folder) ;;
        lift (makedirs env output_folder) ;;
        log INFO (MsgOutputFolderCreated output_folder)
   else ret tt) ;;
  for_each output_formats (fun fmt =>
    let output_path :=
      path_join output_folder (output_name ++ "." ++ fmt)%string in
    try_except
      ((if String.eqb fmt "mp3"
        then export_call audio output_path "mp3" (Some "192k"%string)
        else if String.eqb fmt "wav"
        then export_call audio output_path "wav" None
        else export_call audio output_path fmt None) ;;
       log INFO (MsgFileSaved output_path))
      (fun e => log ERROR (MsgSaveError fmt e))).

(** Lines 339-350 of [run]: the [if]/[elif]/[elif] on the truthiness of the
    two intermediate results. [a and b] evaluates [b] only when [a] is
    true. *)
Definition final_combine (mixed_audio concatenated_audio : option AudioSegment)
  : M unit :=
  both <- (m <- lift (truthy mixed_audio) ;;
           if m then lift (truthy concatenated_audio) else ret false) ;;
  if both then
    how <- config_get final_combine_method "concatenate"%string ;;
    if String.eqb how "overlay"
    then m <- lift (seg_of AttributeError mixed_audio) ;;
         c <- lift (seg_of AttributeError concatenated_audio) ;;
         r <- lift (overlay env m c) ;;
         set_result (Some r)
    else m <- lift (seg_of TypeError mixed_audio) ;;
         c <- lift (seg_of TypeError concatenated_audio) ;;
         r <- lift (append env m c) ;;
         set_result (Some r)
  else
    m <- lift (truthy mixed_audio) ;;
    if m then set_result mixed_audio
    else
      c <- lift (truthy concatenated_audio) ;;
      if c then set_result concatenated_audio else ret tt.

(** Lines 322-350 of [run]: the branch taken when [mix_segments] or
    [concatenate_segments] is not empty. *)
Definition combine_new_format : M unit :=
  s <- self ;;
  mixed_audio <-
    match mix_segments s with
    | [] => ret None
    | first :: rest =>
        log INFO (MsgRunMixing (List.length (mix_segments s))) ;;
        mixed <- lift (overlay_loop first rest) ;;
        ret (Some mixed)
    end ;;
  concatenated_audio <-
    match concatenate_segments s with
    | [] => ret None
    | first :: rest =>
        log INFO (MsgRunConcatenating (List.length (concatenate_segments s))) ;;
        concatenated <- lift (concatenate_loop first rest) ;;
        ret (Some concatenated)
    end ;;
  final_combine mixed_audio concatenated_audio.

(** Lines 354-358 of [run]: the legacy branch. *)
Definition combine_legacy : M unit :=
  combine_method <- config_get combine_method "concatenate"%string ;;
  if String.eqb combine_method "mix"
  then r <- mix_audio_files ;; set_result r
  else r <- concatenate_audio_files ;; set_result r.

(** Lines 312-361 of [run]: the banner, the loading and the combination.
    The value is [false] when the method returns at line 361 because nothing
    was loaded, and [true] when control reaches step 4. *)
Definition load_and_combine : M bool :=
  log INFO MsgBanner ;;
  log INFO MsgStart ;;
  log INFO MsgBanner ;;
  load_audio_files ;;
  s <- self ;;
  if nonempty (mix_segments s) || nonempty (concatenate_segments s)
  then combine_new_format ;; ret true
  else if nonempty (audio_segments s)
  then combine_legacy ;; ret true
  else log ERROR MsgNothingLoaded ;; ret false.

(** Lines 363-374 of [run]: effects, export and the closing banner. *)
Definition effects_and_save : M unit :=
  s <- self ;;
  has_result <- lift (truthy (result s)) ;;
  (if has_result
   then audio <- lift (seg_of AttributeError (result s)) ;;
        r <- apply_effects audio ;;
        set_result (Some r)
   else ret tt) ;;
  s <- self ;;
  has_result <- lift (truthy (result s)) ;;
  (if has_result
   then audio <- lift (seg_of AttributeError (result s)) ;;
        output_name <- config_get output_name "result"%string ;;
        save_audio audio output_name
   else ret tt) ;;
  log INFO MsgBanner ;;
  log INFO MsgFinished ;;
  log INFO MsgBanner.

(** [run] (lines 308-374). *)
Definition run : M unit :=
  go_on <- load_and_combine ;;
  if go_on then effects_and_save else ret tt.

(** Lines 383-389 of [main]: the choice of the configuration file and the
    construction of the pipeline object. *)
Definition startup (argv : list string) : M unit :=
  config_file <-
    match argv with
    | _ :: arg :: _ => log INFO (MsgUsingConfig arg) ;; ret arg
    | _ => ret "config.yaml"%string
    end ;;
  __init__ config_file.

(** [main] (lines 377-394), on the argument vector of the process. *)
Definition main (argv : list string) : M unit :=
  try_except
    (startup argv ;; run)
    (fun e => log ERROR (MsgFatal e) ;; raise e).

(** The segments a loading loop appends: those of the files that decode. *)
Definition decoded (input_folder : string) (files : list string)
  : list AudioSegment :=
  flat_map (fun audio_file =>
              match from_file env (path_join input_folder audio_file) with
              | Returns audio => [audio]
              | Raises _ => []
              end) files.

End AudioPipeline.

(** The exit status of the interpreter after [main()]: 0 when it returns,
    1 when an exception leaves it. *)
Definition exit_status (run_of_main : outcome unit * Pipeline) : Z :=
  match fst run_of_main with
  | Returns _ => 0
  | Raises _ => 1
  end.

(** The state in which [run] starts: the three lines of the opening banner. *)
Definition banner (s : Pipeline) : Pipeline :=
  record_event (Log INFO MsgBanner)
    (record_event (Log INFO MsgStart) (record_event (Log INFO MsgBanner) s)).

(** The state after the three closing lines of a run that reached its end. *)
Definition closing (s : Pipeline) : Pipeline :=
  record_event (Log INFO MsgBanner)
    (record_event (Log INFO MsgFinished) (record_event (Log INFO MsgBanner) s)).

(* ------------------------------------------------------------------------- *)
(** ** A concrete studio: files on disk and a library without signal
       processing *)

Module Studio.

(** Three frames of 8-bit mono at 8 kHz: 0.375 ms of audio. *)
Definition tick : AudioSegment := mkSegment [x80; x80; x80] 1 8000 1.

(** Eight frames of 8-bit mono at 8 kHz: 1 ms of audio. *)
Definition beep : AudioSegment :=
  mkSegment [x80; x90; xa0; x90; x80; x70; x60; x70] 1 8000 1.

Definition unavailable {A} : outcome A := Raises (LibraryError "audioop").

(** The folder [input_audio] holds [tick.wav] and [beep.wav]; the file
    [config.yaml] holds [doc]; every signal-processing call fails, so a run
    that completes here has made none. *)
Definition studio (doc : yaml_document) : Env :=
  {| path_exists := fun p => String.eqb p "input_audio";
     read_yaml := fun p =>
       if String.eqb p "config.yaml" then Returns doc
       else Raises FileNotFoundError;
     from_file := fun p =>
       if String.eqb p "input_audio/tick.wav" then Returns tick
       else if String.eqb p "input_audio/beep.wav" then Returns beep
       else Raises FileNotFoundError;
     makedirs := fun _ => Returns tt;
     export := fun _ _ _ _ => Returns tt;
     overlay := fun _ _ => unavailable;
     apply_gain := fun _ _ => unavailable;
     int_scaled := fun _ _ => unavailable;
     resample := fun _ _ => unavailable;
     remix_channels := fun _ _ => unavailable;
     resize_samples := fun _ _ => unavailable;
     fade_in := fun _ _ => unavailable;
     fade_out := fun _ _ => unavailable;
     reverse := fun _ => unavailable;
     normalize := fun _ _ => unavailable |}.

Definition no_effect : Effect := mkEffect None None None None None None None.

Definition empty_config : Config :=
  mkConfig None None None None None None None None None None.

(** [mix_files: [tick.wav]] and [concatenate_files: [beep.wav]]. *)
Definition tick_and_beep : Config :=
  mkConfig None None None None
           (Some ["tick.wav"%string]) (Some ["beep.wav"%string])
           None None None None.

(** [audio_files: [tick.wav, tick.wav]], the legacy list. *)
Definition two_ticks : Config :=
  mkConfig None None None None None None
           (Some ["tick.wav"; "tick.wav"]%string) None None None.

(** [audio_files: [tick.wav]]: a legacy list whose result lasts 0 ms. *)
Definition lone_tick : Config :=
  mkConfig None None None None None None
           (Some ["tick.wav"%string]) None None None.

(** [input_folder: nowhere], a folder that does not exist. *)
Definition nowhere : Config :=
  mkConfig (Some "nowhere"%string) None None None None None
           (Some ["tick.wav"%string]) None None None.

(** [audio_files: [beep.wav]] followed by one effect. *)
Definition beep_then (effect : Effect) : Config :=
  mkConfig None None None None None None
           (Some ["beep.wav"%string]) None None (Some [effect]).

Definition reverse_effect : Effect :=
  mkEffect (Some "reverse"%string) None None None None None None.

Definition repeat_effect (times : Z) : Effect :=
  mkEffect (Some "repeat"%string) None None None None None (Some times).

Definition speed_effect (factor : Q) : Effect :=
  mkEffect (Some "speed"%string) None (Some factor) None None None None.

(** [mix_files: [tick.wav, missing.wav, beep.wav]]: the second file is not
    in the folder. *)
Definition with_missing : Config :=
  mkConfig None None None None
           (Some ["tick.wav"; "missing.wav"; "beep.wav"]%string) None
           None None None None.

(** [mix_files: [missing.wav]] and [audio_files: [absent.wav]]. *)
Definition only_missing : Config :=
  mkConfig None None None None
           (Some ["missing.wav"%string]) None
           (Some ["absent.wav"%string]) None None None.

(** [audio_files: [beep.wav]] and [output_formats: [wav]]. *)
Definition beep_to_wav : Config :=
  mkConfig None None None (Some ["wav"%string]) None None
           (Some ["beep.wav"%string]) None None None.

(** Four frames of 8-bit stereo at 8 kHz. *)
Definition chord : AudioSegment :=
  mkSegment [x80; x80; x90; x70; xa0; x60; x90; x70] 1 8000 2.

(** The studio with [audioop.tostereo] for 8-bit mono: every sample goes to
    both channels. *)
Definition stereo_capable (doc : yaml_document) : Env :=
  let e := studio doc in
  mkEnv (path_exists e) (read_yaml e) (from_file e) (makedirs e) (export e)
        (overlay e) (apply_gain e) (int_scaled e) (resample e)
        (fun seg n =>
           if (channels seg =? 1) && (sample_width seg =? 1) && (n =? 2)
           then Returns (mkSegment (flat_map (fun b => [b; b]) (_data seg))
                                   1 (frame_rate seg) 2)
           else unavailable)
        (resize_samples e) (fade_in e) (fade_out e) (reverse e) (normalize e).

(** [mix_files: [tick.wav]] and [concatenate_files: [tick.wav]]: both
    intermediate results last 0 ms. *)
Definition ticks_in_both_lists : Config :=
  mkConfig None None None None
           (Some ["tick.wav"%string]) (Some ["tick.wav"%string])
           None None None None.



(** The studio on a disk that refuses every write. *)
Definition locked (doc : yaml_document) : Env :=
  let e := studio doc in
  mkEnv (path_exists e) (read_yaml e) (from_file e)
        (fun _ => Raises (LibraryError "PermissionError"))
        (fun _ _ _ _ => Raises (LibraryError "PermissionError"))
        (overlay e) (apply_gain e) (int_scaled e) (resample e)
        (remix_channels e) (resize_samples e) (fade_in e) (fade_out e)
        (reverse e) (normalize e).

(** The studio with Python's arithmetic for a speed factor of one:
    [int(rate * 1.0)] is [rate]. *)
Definition steady (doc : yaml_document) : Env :=
  let e := studio doc in
  mkEnv (path_exists e) (read_yaml e) (from_file e) (makedirs e) (export e)
        (overlay e) (apply_gain e)
        (fun rate factor =>
           if Qeq_bool factor 1 then Returns rate else unavailable)
        (resample e) (remix_channels e) (resize_samples e) (fade_in e)
        (fade_out e) (reverse e) (normalize e).

(** A pipeline object right after [__init__]. *)
Definition fresh (c : pyconfig) : Pipeline := mkPipeline c [] [] [] None [].

End Studio.

(** A computation that, whatever it returns or raises, adds no write to the
    trace. *)
Definition writes_nothing {A} (c : M A) : Prop :=
  forall s, writes (trace (snd (c s))) = writes (trace s).

(** What one loading loop over [files] changes between [s] and [s']: the
    collection [which] grows by the segments that decoded, the decoder was
    handed every path in order, and the other fields stay. *)
Definition loaded_into (env : Env) (which : collection) (input_folder : string)
    (files : list string) (s s' : Pipeline) : Prop :=
  config s' = config s
  /\ result s' = result s
  /\ (forall w, segments w s'
                = segments w s
                  ++ (if collection_eqb w which
                      then decoded env input_folder files else []))
  /\ decodes (trace s')
     = decodes (trace s) ++ map (path_join input_folder) files.

(** Two segments in one sample format: [_sync] converts neither. *)
Definition same_format (a b : AudioSegment) : Prop :=
  sample_width b = sample_width a
  /\ frame_rate b = frame_rate a
  /\ channels b = channels a.

(** The bytes of a segment make up whole frames, as a decoder delivers them. *)
Definition whole_frames (seg : AudioSegment) : Prop :=
  (Z.of_nat (List.length (_data seg)) mod frame_width seg) = 0.

(** The frames, and the milliseconds [len] reports, summed over segments. *)
Definition total_frames (segs : list AudioSegment) : Z :=
  fold_right (fun seg n => frame_count seg + n) 0 segs.

Definition total_milliseconds (segs : list AudioSegment) : Z :=
  fold_right (fun seg n => milliseconds seg + n) 0 segs.

(** The configuration file [main] settles on (lines 383-385):
    [sys.argv[1]] when there is one. *)
Definition config_file_of (argv : list string) : string :=
  match argv with
  | _ :: arg :: _ => arg
  | _ => "config.yaml"%string
  end.

(** What [main] logs before it constructs the pipeline. *)
Definition startup_log (argv : list string) : list event :=
  match argv with
  | _ :: arg :: _ => [Log INFO (MsgUsingConfig arg)]
  | _ => []
  end.

(** The export call [save_audio] makes for one format. *)
Definition export_event (audio : AudioSegment)
    (output_folder output_name fmt : string) : event :=
  ExportCall audio (path_join output_folder (output_name ++ "." ++ fmt)%string)
             fmt (if String.eqb fmt "mp3" then Some "192k"%string else None).

(** An event that, if it is an export call, exports [audio]. *)
Definition exports_only (audio : AudioSegment) (e : event) : Prop :=
  match e with
  | ExportCall a _ _ _ => a = audio
  | Log _ _ | Decode _ | Makedirs _ => True
  end.

(** A computation whose export calls, if it makes any, all export the buffer
    that [self.result] holds when it ends. *)
Definition exports_its_result {A} (c : M A) : Prop :=
  forall s, exists W,
    writes (trace (snd (c s))) = writes (trace s) ++ W
    /\ forall a p f b,
         In (ExportCall a p f b) W -> result (snd (c s)) = Some a.

(** A buffer as a decoder delivers it: positive frame rate, channel count
    and sample width, and bytes that make up whole frames. *)
Definition well_formed (seg : AudioSegment) : Prop :=
  0 < frame_rate seg /\ 0 < channels seg /\ 0 < sample_width seg
  /\ whole_frames seg.

(** [seg'] has the frame rate and the frame count of [seg], and holds whole
    frames if [seg] does. *)
Definition same_frames (seg seg' : AudioSegment) : Prop :=
  frame_rate seg' = frame_rate seg
  /\ frame_count seg' = frame_count seg
  /\ (whole_frames seg -> whole_frames seg').

(** What [audioop.tomono], [tostereo] and [lin2lin] guarantee when they
    return: the requested channel count or sample width, the other format
    fields untouched, and as many frames as before. *)
Definition conversions_keep_frames (env : Env) : Prop :=
  (forall seg n seg',
     remix_channels env seg n = Returns seg' ->
     channels seg' = n /\ sample_width seg' = sample_width seg
     /\ same_frames seg seg')
  /\ (forall seg w seg',
        resize_samples env seg w = Returns seg' ->
        sample_width seg' = w /\ channels seg' = channels seg
        /\ same_frames seg seg').

(** The exception [e] was raised by a channel or sample-width conversion of
    the library. *)
Definition conversion_raised (env : Env) (e : exn) : Prop :=
  exists seg n,
    remix_channels env seg n = Raises e \/ resize_samples env seg n = Raises e.

(** The effect function a specification selects, read off its [type] one
    name at a time and without the dictionary of [apply_effects]: the method
    of that name for the six known kinds, and the warning that leaves the
    buffer alone for any other or missing type. *)
Definition effect_by_type (env : Env) (effect : Effect) (audio : AudioSegment)
  : M AudioSegment :=
  let skip := log WARNING (MsgUnknownEffect (e_type effect)) ;; ret audio in
  match e_type effect with
  | None => skip
  | Some name =>
      if String.eqb name "volume" then apply_volume_effect env audio effect
      else if String.eqb name "speed" then apply_speed_effect env audio effect
      else if String.eqb name "fade" then apply_fade_effect env audio effect
      else if String.eqb name "reverse" then apply_reverse_effect env audio effect
      else if String.eqb name "normalize"
      then apply_normalize_effect env audio effect
      else if String.eqb name "repeat" then apply_repeat_effect audio effect
      else skip
  end.

(* ------------------------------------------------------------------------- *)
(** ** The monad laws the proofs use, pointwise *)

Lemma bind_ret_l {A B} (a : A) (k : A -> M B) s : bind (ret a) k s = k a s.
Proof. reflexivity. Qed.

Lemma bind_assoc {A B C} (c : M A) (f : A -> M B) (g : B -> M C) s :
  bind (bind c f) g s = bind c (fun a => bind (f a) g) s.
Proof.
  unfold bind. destruct (c s) as [[a | e] s1]; reflexivity.
Qed.

Lemma bind_ext {A B} (c : M A) (f g : A -> M B) s :
  (forall a s', f a s' = g a s') -> bind c f s = bind c g s.
Proof.
  intros H. unfold bind. destruct (c s) as [[a | e] s1]; auto.
Qed.

Lemma bind_returns {A B} {c : M A} (k : A -> M B) {s a s1} :
  c s = (Returns a, s1) -> bind c k s = k a s1.
Proof. intros H. unfold bind. now rewrite H. Qed.

(* ------------------------------------------------------------------------- *)
(** ** The repeat effect *)

Lemma bytes_mul_1 (data : list byte) : bytes_mul data 1 = data.
Proof. unfold bytes_mul. simpl. apply app_nil_r. Qed.

Lemma mul_int_1 (seg : AudioSegment) : mul_int seg 1 = seg.
Proof.
  unfold mul_int, _spawn. rewrite bytes_mul_1. now destruct seg.
Qed.

(** C8. For every buffer, the repeat effect with [times] equal to 1 (given, or
    by default when the key is missing) returns the input buffer itself: same
    bytes, same format.  It logs one line and touches nothing else. *)
Theorem repeat_once_is_identity (audio : AudioSegment) (params : Effect)
    (s : Pipeline) :
  dict_get (e_times params) 1 = 1 ->
  apply_repeat_effect audio params s
  = (Returns audio, record_event (Log INFO (MsgRepeat 1)) s).
Proof.
  intros Htimes. unfold apply_repeat_effect. rewrite Htimes.
  unfold log, emit, bind, ret. now rewrite mul_int_1.
Qed.

Lemma repeat_once_is_identity_witness :
  dict_get (e_times Studio.no_effect) 1 = 1
  /\ apply_repeat_effect Studio.beep Studio.no_effect boot
     = (Returns Studio.beep, record_event (Log INFO (MsgRepeat 1)) boot).
Proof.
  split; [reflexivity | apply repeat_once_is_identity; reflexivity].
Defined.

(* ------------------------------------------------------------------------- *)
(** ** The effect chain *)

Section EffectChain.

Variable env : Env.

(** The loop over a list that is a concatenation runs the first part, then
    the second part on the buffer the first part produced. *)
Lemma effects_loop_app (before after : list Effect) :
  forall audio s,
    effects_loop env (before ++ after) audio s
    = (r <- effects_loop env before audio ;; effects_loop env after r) s.
Proof.
  induction before as [| effect before IH]; intros audio s; simpl.
  - reflexivity.
  - rewrite bind_assoc. apply bind_ext. intros r s'. apply IH.
Qed.

(** Folding from any accumulated computation: the accumulator runs first and
    the loop takes over from its buffer. *)
Lemma fold_left_effects_loop (effects : list Effect) :
  forall (acc : M AudioSegment) s,
    fold_left (fun acc effect => r <- acc ;; effect_step env r effect)
              effects acc s
    = (r <- acc ;; effects_loop env effects r) s.
Proof.
  induction effects as [| effect rest IH]; intros acc s; simpl.
  - unfold bind, ret. destruct (acc s) as [[a | e] s1]; reflexivity.
  - rewrite IH. apply bind_assoc.
Qed.

(** One turn of the loop applies the effect function its type selects. *)
Lemma effect_step_by_type (audio : AudioSegment) (effect : Effect)
    (s : Pipeline) :
  effect_step env audio effect s = effect_by_type env effect audio s.
Proof.
  unfold effect_step, effect_by_type, effect_function.
  destruct (e_type effect) as [name |]; [| reflexivity].
  unfold effect_functions, dict_lookup.
  repeat match goal with
  | |- context [String.eqb name ?k] => destruct (String.eqb name k)
  end; reflexivity.
Qed.

Lemma fold_left_by_type (effects : list Effect) :
  forall (acc : M AudioSegment) s,
    fold_left (fun acc effect => r <- acc ;; effect_by_type env effect r)
              effects acc s
    = (r <- acc ;; effects_loop env effects r) s.
Proof.
  induction effects as [| effect rest IH]; intros acc s; simpl.
  - unfold bind, ret. destruct (acc s) as [[a | e] s1]; reflexivity.
  - rewrite IH, bind_assoc. apply bind_ext. intros r s'.
    unfold bind. now rewrite effect_step_by_type.
Qed.

(** C4. For every buffer and every ordered effect list, the loop of
    [apply_effects] is the left fold of the effect functions over the list,
    started from the input buffer: every step applies the effect function
    that the [type] of its specification selects (volume, speed, fade,
    reverse, normalize or repeat, and the skip with a warning otherwise) to
    the buffer the previous step returned, and an exception of a step ends
    the fold.  On the empty list it returns the input buffer and changes
    nothing.  [apply_effects] itself is that loop over the [effects] key of
    the configuration. *)
Theorem apply_effects_is_left_fold (audio : AudioSegment) (s : Pipeline) :
  (forall effects,
     effects_loop env effects audio s
     = fold_left (fun acc effect => r <- acc ;; effect_by_type env effect r)
                 effects (ret audio) s)
  /\ (forall effects,
        effects_loop env effects audio s
        = fold_left (fun acc effect => r <- acc ;; effect_step env r effect)
                    effects (ret audio) s)
  /\ (forall buffer effect s',
        effect_step env buffer effect s' = effect_by_type env effect buffer s')
  /\ (forall buffer effect s',
        (e_type effect = Some "volume"%string ->
         effect_step env buffer effect s'
         = (log INFO (MsgVolume (dict_get (e_gain effect) 0%Q)) ;;
            lift (apply_gain env buffer (dict_get (e_gain effect) 0%Q))) s')
        /\ (e_type effect = Some "reverse"%string ->
            effect_step env buffer effect s'
            = (log INFO MsgReverse ;; lift (reverse env buffer)) s')
        /\ (e_type effect = Some "normalize"%string ->
            effect_step env buffer effect s'
            = (log INFO (MsgNormalize (dict_get (e_headroom effect) (1 # 10)%Q)) ;;
               lift (normalize env buffer
                       (dict_get (e_headroom effect) (1 # 10)%Q))) s')
        /\ (e_type effect = Some "repeat"%string ->
            effect_step env buffer effect s'
            = (log INFO (MsgRepeat (dict_get (e_times effect) 1)) ;;
               ret (mul_int buffer (dict_get (e_times effect) 1))) s'))
  /\ effects_loop env [] audio s = (Returns audio, s)
  /\ apply_effects env audio s
     = match config s with
       | PyDict c => effects_loop env (dict_get (effects c) []) audio s
       | PyNone | PyOther => (Raises AttributeError, s)
       end.
Proof.
  split; [| split; [| split; [| split; [| split]]]].
  - intros effects. now rewrite fold_left_by_type.
  - intros effects. now rewrite fold_left_effects_loop.
  - apply effect_step_by_type.
  - intros buffer effect s'.
    repeat split; intros Htype; rewrite effect_step_by_type;
      unfold effect_by_type; rewrite Htype; reflexivity.
  - reflexivity.
  - unfold apply_effects, bind, config_get.
    destruct (config s); reflexivity.
Qed.

(** The six keys of the dispatch dictionary are the only ones it answers. *)
Lemma effect_function_unknown (effect_type : option string) :
  (forall name, effect_type = Some name ->
     ~ In name ["volume"; "speed"; "fade"; "reverse"; "normalize"; "repeat"]%string) ->
  effect_function env effect_type = None.
Proof.
  intros Hunknown. destruct effect_type as [name |]; [| reflexivity].
  specialize (Hunknown name eq_refl). simpl in Hunknown.
  unfold effect_function, effect_functions, dict_lookup.
  repeat match goal with
  | |- context [String.eqb name ?k] =>
      destruct (String.eqb_spec name k) as [-> | _];
      [ exfalso; apply Hunknown; tauto | ]
  end.
  reflexivity.
Qed.

(** C5. For every effect specification whose [type] is not one of the six
    known kinds (or is missing), the step logs one warning, does not raise,
    and hands the buffer it received, unchanged, to the next step: the loop
    over [before ++ effect :: after] is the loop over [before], the warning,
    and the loop over [after] on the very buffer [before] produced. *)
Theorem unknown_effect_is_skipped (effect : Effect) (before after : list Effect)
    (audio : AudioSegment) (s : Pipeline) :
  (forall name, e_type effect = Some name ->
     ~ In name ["volume"; "speed"; "fade"; "reverse"; "normalize"; "repeat"]%string) ->
  effect_step env audio effect s
  = (Returns audio,
     record_event (Log WARNING (MsgUnknownEffect (e_type effect))) s)
  /\ effects_loop env (before ++ effect :: after) audio s
     = (r <- effects_loop env before audio ;;
        log WARNING (MsgUnknownEffect (e_type effect)) ;;
        effects_loop env after r) s.
Proof.
  intros Hunknown.
  assert (Hstep : forall a s',
             effect_step env a effect s'
             = (Returns a,
                record_event (Log WARNING (MsgUnknownEffect (e_type effect))) s')).
  { intros a s'. unfold effect_step.
    now rewrite (effect_function_unknown _ Hunknown). }
  split; [apply Hstep |].
  rewrite effects_loop_app. apply bind_ext. intros r s'. simpl.
  unfold bind at 1. rewrite Hstep. reflexivity.
Qed.

End EffectChain.

Lemma apply_effects_is_left_fold_witness :
  let env := Studio.studio EmptyDocument in
  let chain := [Studio.repeat_effect 2; Studio.no_effect;
                Studio.repeat_effect 3; Studio.reverse_effect;
                Studio.repeat_effect 5] in
  effects_loop env chain Studio.tick boot
  = fold_left (fun acc effect => r <- acc ;; effect_by_type env effect r)
              chain (ret Studio.tick) boot
  /\ effects_loop env chain Studio.tick boot
     = (Raises (LibraryError "audioop"),
        mkPipeline PyNone [] [] [] None
          [Log INFO (MsgRepeat 2); Log WARNING (MsgUnknownEffect None);
           Log INFO (MsgRepeat 3); Log INFO MsgReverse])
  /\ fst (effects_loop env [Studio.repeat_effect 2; Studio.no_effect;
                            Studio.repeat_effect 3] Studio.tick boot)
     = Returns (mul_int Studio.tick 6).
Proof.
  intros env chain.
  split; [| split; reflexivity].
  exact (proj1 (apply_effects_is_left_fold env Studio.tick boot) chain).
Defined.

Lemma unknown_effect_is_skipped_witness :
  let echo := mkEffect (Some "echo"%string) None None None None None None in
  let env := Studio.studio EmptyDocument in
  effect_step env Studio.beep echo boot
  = (Returns Studio.beep,
     record_event (Log WARNING (MsgUnknownEffect (Some "echo"%string))) boot)
  /\ effects_loop env ([Studio.no_effect] ++ echo :: [Studio.no_effect])
       Studio.beep boot
     = (r <- effects_loop env [Studio.no_effect] Studio.beep ;;
        log WARNING (MsgUnknownEffect (Some "echo"%string)) ;;
        effects_loop env [Studio.no_effect] r) boot.
Proof.
  apply unknown_effect_is_skipped.
  intros name Hname. injection Hname as <-. simpl.
  intros [H | [H | [H | [H | [H | [H | []]]]]]]; discriminate H.
Defined.

(* ------------------------------------------------------------------------- *)
(** ** Traces *)

Lemma writes_record (e : event) (s : Pipeline) :
  writes (trace (record_event e s))
  = writes (trace s) ++ (if is_write e then [e] else []).
Proof.
  unfold writes. simpl. rewrite filter_app. simpl.
  now destruct (is_write e).
Qed.

Lemma decodes_app (tr1 tr2 : list event) :
  decodes (tr1 ++ tr2) = decodes tr1 ++ decodes tr2.
Proof.
  induction tr1 as [| e tr1 IH]; simpl; [reflexivity |].
  destruct e; simpl; now rewrite IH.
Qed.

(** Computations that do not write compose. *)
Lemma wn_ret {A} (a : A) : writes_nothing (ret a).
Proof. intros s. reflexivity. Qed.

Lemma wn_raise {A} (e : exn) : writes_nothing (@raise A e).
Proof. intros s. reflexivity. Qed.

Lemma wn_lift {A} (o : outcome A) : writes_nothing (lift o).
Proof. intros s. reflexivity. Qed.

Lemma wn_self : writes_nothing self.
Proof. intros s. reflexivity. Qed.

Lemma wn_set_result (r : option AudioSegment) : writes_nothing (set_result r).
Proof. intros s. reflexivity. Qed.

Lemma wn_config_get {A} (key : Config -> option A) (default : A) :
  writes_nothing (config_get key default).
Proof. intros s. unfold config_get. now destruct (config s). Qed.

Lemma wn_push (which : collection) (audio : AudioSegment) :
  writes_nothing (push which audio).
Proof. intros s. now destruct which. Qed.

Lemma wn_log (l : level) (m : message) : writes_nothing (log l m).
Proof.
  intros s. unfold log, emit. simpl snd. rewrite writes_record. simpl.
  apply app_nil_r.
Qed.

Lemma wn_decode (path : string) : writes_nothing (emit (Decode path)).
Proof.
  intros s. unfold emit. simpl snd. rewrite writes_record. simpl.
  apply app_nil_r.
Qed.

Lemma wn_bind {A B} (c : M A) (k : A -> M B) :
  writes_nothing c -> (forall a, writes_nothing (k a)) ->
  writes_nothing (bind c k).
Proof.
  intros Hc Hk s. unfold bind. specialize (Hc s).
  destruct (c s) as [[a | e] s1]; simpl in *.
  - now rewrite Hk.
  - exact Hc.
Qed.

Lemma wn_try_except {A} (body : M A) (handler : exn -> M A) :
  writes_nothing body -> (forall e, writes_nothing (handler e)) ->
  writes_nothing (try_except body handler).
Proof.
  intros Hb Hh s. unfold try_except. specialize (Hb s).
  destruct (body s) as [[a | e] s1]; simpl in *.
  - exact Hb.
  - now rewrite Hh.
Qed.

Lemma wn_for_each {A} (xs : list A) (body : A -> M unit) :
  (forall x, writes_nothing (body x)) -> writes_nothing (for_each xs body).
Proof.
  intros Hbody. induction xs as [| x rest IH]; simpl.
  - apply wn_ret.
  - apply wn_bind; auto.
Qed.

Create HintDb quiet.
#[local] Hint Resolve wn_ret wn_raise wn_lift wn_self wn_set_result
  wn_config_get wn_push wn_log wn_decode : quiet.

(** Splits a computation along its binds, handlers, loops and branches and
    closes the leaves with the [quiet] hints. *)
Ltac quiet :=
  repeat first
    [ progress auto with quiet
    | apply wn_bind; [| intros ? ]
    | apply wn_try_except; [| intros ? ]
    | apply wn_for_each; intros ?
    | match goal with
      | |- writes_nothing (if ?b then _ else _) => destruct b
      | |- writes_nothing (match ?x with _ => _ end) => destruct x
      end ].

Section Quiet.

Variable env : Env.

Lemma wn_load_audio_files : writes_nothing (load_audio_files env).
Proof. unfold load_audio_files, load_one. quiet. Qed.

Lemma wn_startup (argv : list string) : writes_nothing (startup env argv).
Proof.
  unfold startup, __init__, load_config. quiet.
Qed.

Lemma wn_load_and_combine : writes_nothing (load_and_combine env).
Proof.
  unfold load_and_combine, combine_new_format, combine_legacy, final_combine,
    mix_audio_files, concatenate_audio_files.
  pose proof wn_load_audio_files. quiet.
Qed.

End Quiet.

(* ------------------------------------------------------------------------- *)
(** ** Loading *)

Section Loading.

Variable env : Env.

Lemma decoded_cons (input_folder audio_file : string) (files : list string) :
  decoded env input_folder (audio_file :: files)
  = decoded env input_folder [audio_file] ++ decoded env input_folder files.
Proof. unfold decoded. simpl. now rewrite app_nil_r. Qed.

(** One file: the loop body never raises. *)
Lemma load_one_spec (which : collection) (msg : string -> Z -> Z -> message)
    (input_folder audio_file : string) (s : Pipeline) :
  exists s',
    load_one env input_folder which msg audio_file s = (Returns tt, s')
    /\ loaded_into env which input_folder [audio_file] s s'.
Proof.
  unfold load_one, try_except, bind, emit, lift, log, emit, push, loaded_into,
    decoded.
  simpl.
  destruct which;
    (destruct (from_file env (path_join input_folder audio_file)) as [audio | e];
     [ destruct (py_len audio) as [ms | e] | ]);
    (eexists; split; [reflexivity |]; simpl;
     split; [reflexivity |]; split; [reflexivity |]; split;
     [ intros w; destruct w; simpl; now rewrite ?app_nil_r
     | rewrite !decodes_app; simpl; now rewrite ?app_nil_r ]).
Qed.

(** A whole loop. *)
Lemma load_loop_spec (which : collection) (msg : string -> Z -> Z -> message)
    (input_folder : string) (files : list string) :
  forall s, exists s',
    for_each files (load_one env input_folder which msg) s = (Returns tt, s')
    /\ loaded_into env which input_folder files s s'.
Proof.
  induction files as [| audio_file files IH]; intros s.
  - exists s. split; [reflexivity |]. unfold loaded_into. simpl.
    repeat split.
    + intros w. destruct (collection_eqb w which); now rewrite app_nil_r.
    + now rewrite app_nil_r.
  - destruct (load_one_spec which msg input_folder audio_file s)
      as (s1 & Hrun1 & Hc1 & Hr1 & Hseg1 & Hdec1).
    destruct (IH s1) as (s2 & Hrun2 & Hc2 & Hr2 & Hseg2 & Hdec2).
    exists s2. split.
    + simpl. rewrite (bind_returns _ Hrun1). exact Hrun2.
    + unfold loaded_into. repeat split.
      * congruence.
      * congruence.
      * intros w. rewrite decoded_cons, Hseg2, Hseg1.
        destruct (collection_eqb w which); now rewrite <- ?app_assoc.
      * rewrite Hdec2, Hdec1. simpl. now rewrite <- app_assoc.
Qed.

(** The files of the legacy list that [load_audio_files] hands to the
    decoder: all of them when the list is not empty and both new-style lists
    are, none otherwise. *)
Lemma load_audio_files_spec (c : Config) (s : Pipeline) :
  config s = PyDict c ->
  path_exists env (dict_get (input_folder c) "input_audio"%string) = true ->
  let folder := dict_get (input_folder c) "input_audio"%string in
  let mix := dict_get (mix_files c) [] in
  let conc := dict_get (concatenate_files c) [] in
  let legacy :=
    match dict_get (audio_files c) [], mix, conc with
    | (_ :: _) as files, [], [] => files
    | _, _, _ => []
    end in
  exists s',
    load_audio_files env s = (Returns tt, s')
    /\ config s' = config s
    /\ result s' = result s
    /\ mix_segments s' = mix_segments s ++ decoded env folder mix
    /\ concatenate_segments s'
       = concatenate_segments s ++ decoded env folder conc
    /\ audio_segments s' = audio_segments s ++ decoded env folder legacy
    /\ decodes (trace s')
       = decodes (trace s) ++ map (path_join folder) mix
         ++ map (path_join folder) conc ++ map (path_join folder) legacy.
Proof.
  intros Hcfg Hfolder. cbv zeta.
  set (folder := dict_get (input_folder c) "input_audio"%string) in *.
  remember (dict_get (mix_files c) []) as mix eqn:Emix.
  remember (dict_get (concatenate_files c) []) as conc eqn:Econc.
  set (legacy := match dict_get (audio_files c) [], mix, conc with
                 | (_ :: _) as files, [], [] => files
                 | _, _, _ => []
                 end).
  destruct (load_loop_spec MixSegments MsgMixFileLoaded folder mix s)
    as (s1 & Hrun1 & Hc1 & Hr1 & Hseg1 & Hdec1).
  destruct (load_loop_spec ConcatenateSegments MsgConcatFileLoaded folder conc s1)
    as (s2 & Hrun2 & Hc2 & Hr2 & Hseg2 & Hdec2).
  destruct (load_loop_spec AudioSegments MsgFileLoaded folder legacy s2)
    as (s3 & Hrun3 & Hc3 & Hr3 & Hseg3 & Hdec3).
  pose proof (Hseg1 MixSegments) as Hm1. pose proof (Hseg2 MixSegments) as Hm2.
  pose proof (Hseg3 MixSegments) as Hm3.
  pose proof (Hseg1 ConcatenateSegments) as Hk1.
  pose proof (Hseg2 ConcatenateSegments) as Hk2.
  pose proof (Hseg3 ConcatenateSegments) as Hk3.
  pose proof (Hseg1 AudioSegments) as Ha1.
  pose proof (Hseg2 AudioSegments) as Ha2.
  pose proof (Hseg3 AudioSegments) as Ha3.
  simpl in Hm1, Hm2, Hm3, Hk1, Hk2, Hk3, Ha1, Ha2, Ha3.
  rewrite app_nil_r in Hm2, Hm3, Hk1, Hk3, Ha1, Ha2.
  assert (Hc2' : config s2 = PyDict c) by congruence.
  assert (Hc1' : config s1 = PyDict c) by congruence.
  exists s3. split.
  - unfold load_audio_files.
    unfold bind at 1, config_get at 1. rewrite Hcfg. fold folder.
    rewrite Hfolder. simpl negb. cbv iota.
    rewrite bind_ret_l.
    unfold bind at 1, config_get at 1. rewrite Hcfg, <- Emix.
    rewrite (bind_returns _ Hrun1).
    unfold bind at 1, config_get at 1. rewrite Hc1', <- Econc.
    rewrite (bind_returns _ Hrun2).
    unfold bind at 1, config_get at 1. rewrite Hc2'.
    revert Hrun3. subst legacy. clear.
    destruct (dict_get (audio_files c) []) as [| f files];
      destruct mix; destruct conc; simpl; intros Hrun3;
      solve [ exact Hrun3 | inversion Hrun3; reflexivity ].
  - repeat split; try congruence.
    rewrite Hdec3, Hdec2, Hdec1. now rewrite <- !app_assoc.
Qed.

(** C3. With the input folder in place, the decoder is handed the paths of
    [mix_files], then those of [concatenate_files], then those of the legacy
    [audio_files] list exactly when that list is not empty and both new-style
    lists are empty; in that case [audio_segments] receives the legacy files
    that decode.  As soon as either new-style list is populated no legacy
    path reaches the decoder and [audio_segments] is left as it was. *)
Theorem legacy_list_loaded_iff_alone (c : Config) (s : Pipeline) :
  config s = PyDict c ->
  path_exists env (dict_get (input_folder c) "input_audio"%string) = true ->
  let folder := dict_get (input_folder c) "input_audio"%string in
  let mix := dict_get (mix_files c) [] in
  let conc := dict_get (concatenate_files c) [] in
  let legacy := dict_get (audio_files c) [] in
  let s' := snd (load_audio_files env s) in
  let new_style_paths :=
    map (path_join folder) mix ++ map (path_join folder) conc in
  fst (load_audio_files env s) = Returns tt
  /\ (legacy <> [] /\ mix = [] /\ conc = [] ->
     decodes (trace s')
     = decodes (trace s) ++ new_style_paths ++ map (path_join folder) legacy
     /\ audio_segments s' = audio_segments s ++ decoded env folder legacy)
  /\ (~ (legacy <> [] /\ mix = [] /\ conc = []) ->
     decodes (trace s') = decodes (trace s) ++ new_style_paths
     /\ audio_segments s' = audio_segments s)
  /\ (mix <> [] \/ conc <> [] ->
     decodes (trace s') = decodes (trace s) ++ new_style_paths
     /\ audio_segments s' = audio_segments s).
Proof.
  intros Hcfg Hfolder folder mix conc legacy s' new_style_paths.
  destruct (load_audio_files_spec c s Hcfg Hfolder)
    as (s1 & Hrun & _ & _ & _ & _ & Haudio & Hdec).
  subst s'. rewrite Hrun. simpl snd. simpl fst.
  fold folder mix conc legacy in Haudio, Hdec.
  subst new_style_paths.
  assert (Hnot : ~ (legacy <> [] /\ mix = [] /\ conc = []) ->
                 decodes (trace s1)
                 = decodes (trace s) ++ map (path_join folder) mix
                   ++ map (path_join folder) conc
                 /\ audio_segments s1 = audio_segments s).
  { intros Hn. rewrite Hdec, Haudio.
    destruct legacy as [| f files], mix, conc; simpl;
      rewrite ?app_nil_r; try (split; reflexivity).
    exfalso. apply Hn. repeat split; discriminate. }
  split; [reflexivity |]. split; [| split].
  - intros (Hlegacy & Hmix & Hconc). rewrite Hdec, Haudio, Hmix, Hconc.
    destruct legacy; [contradiction |]. split; reflexivity.
  - exact Hnot.
  - intros Hnew. apply Hnot.
    intros (_ & Hmix & Hconc). destruct Hnew; contradiction.
Qed.

End Loading.

Lemma legacy_list_loaded_iff_alone_witness :
  let env := Studio.studio EmptyDocument in
  let s := Studio.fresh (PyDict Studio.two_ticks) in
  decodes (trace (snd (load_audio_files env s)))
  = ["input_audio/tick.wav"; "input_audio/tick.wav"]%string
  /\ audio_segments (snd (load_audio_files env s)) = [Studio.tick; Studio.tick].
Proof.
  intros env s.
  destruct (legacy_list_loaded_iff_alone env Studio.two_ticks s eq_refl eq_refl)
    as (_ & Hlegacy & _).
  apply Hlegacy. repeat split; discriminate.
Defined.

(* ------------------------------------------------------------------------- *)
(** ** Runs that stop early *)

Section EarlyExits.

Variable env : Env.

(** [run] opens with the three banner lines and then loads. *)
Lemma run_starts_with_load (s : Pipeline) :
  run env s
  = (go_on <- (load_audio_files env ;;
               s1 <- self ;;
               if nonempty (mix_segments s1) || nonempty (concatenate_segments s1)
               then combine_new_format env ;; ret true
               else if nonempty (audio_segments s1)
               then combine_legacy env ;; ret true
               else log ERROR MsgNothingLoaded ;; ret false) ;;
     if go_on then effects_and_save env else ret tt) (banner s).
Proof. reflexivity. Qed.

(** [main] hands on what [run] returns, and logs and re-raises what it
    raises. *)
Lemma main_after_startup (argv : list string) (s s0 : Pipeline) :
  startup env argv s = (Returns tt, s0) ->
  main env argv s
  = match run env s0 with
    | (Returns tt, s1) => (Returns tt, s1)
    | (Raises e, s1) => (Raises e, record_event (Log ERROR (MsgFatal e)) s1)
    end.
Proof.
  intros Hstart. unfold main, try_except.
  rewrite (bind_returns _ Hstart).
  destruct (run env s0) as [[[] | e] s1]; reflexivity.
Qed.

(** C1 (as the code has it). When loading completes and leaves the three
    collections empty, [run] logs the error "no audio file loaded" and
    returns to its caller without raising; nothing is written, and [main]
    returns normally too, so the process ends with status 0. *)
Theorem nothing_loaded_returns_normally (argv : list string)
    (s s0 s1 : Pipeline) :
  startup env argv s = (Returns tt, s0) ->
  load_audio_files env (banner s0) = (Returns tt, s1) ->
  mix_segments s1 = [] ->
  concatenate_segments s1 = [] ->
  audio_segments s1 = [] ->
  let final := record_event (Log ERROR MsgNothingLoaded) s1 in
  run env s0 = (Returns tt, final)
  /\ main env argv s = (Returns tt, final)
  /\ exit_status (main env argv s) = 0
  /\ writes (trace final) = writes (trace s).
Proof.
  intros Hstart Hload Hmix Hconc Haudio final.
  assert (Hrun : run env s0 = (Returns tt, final)).
  { rewrite run_starts_with_load.
    unfold bind at 1. unfold bind at 1. rewrite Hload.
    unfold bind at 1, self at 1. rewrite Hmix, Hconc, Haudio. reflexivity. }
  assert (Hmain : main env argv s = (Returns tt, final)).
  { rewrite (main_after_startup argv s s0 Hstart), Hrun. reflexivity. }
  repeat split.
  - exact Hrun.
  - exact Hmain.
  - unfold exit_status. now rewrite Hmain.
  - subst final. rewrite writes_record. simpl. rewrite app_nil_r.
    pose proof (wn_load_audio_files env (banner s0)) as Hw1.
    rewrite Hload in Hw1. simpl snd in Hw1. rewrite Hw1.
    pose proof (wn_startup env argv s) as Hw0.
    rewrite Hstart in Hw0. simpl snd in Hw0. rewrite <- Hw0.
    unfold banner. now rewrite !writes_record, !app_nil_r.
Qed.

(** C6. If the configured input folder does not exist, [run] logs the error
    and raises [FileNotFoundError] from [load_audio_files], right after the
    opening banner; [main] logs the fatal error and re-raises, the process
    ends with a non-zero status, and nothing has been written. *)
Theorem missing_input_folder_is_fatal (c : Config) (argv : list string)
    (s s0 : Pipeline) :
  startup env argv s = (Returns tt, s0) ->
  config s0 = PyDict c ->
  path_exists env (dict_get (input_folder c) "input_audio"%string) = false ->
  let failed :=
    record_event
      (Log ERROR (MsgInputFolderMissing
                    (dict_get (input_folder c) "input_audio"%string)))
      (banner s0) in
  run env s0 = (Raises FileNotFoundError, failed)
  /\ main env argv s
     = (Raises FileNotFoundError,
        record_event (Log ERROR (MsgFatal FileNotFoundError)) failed)
  /\ exit_status (main env argv s) <> 0
  /\ writes (trace (snd (main env argv s))) = writes (trace s).
Proof.
  intros Hstart Hcfg Hmissing failed.
  assert (Hrun : run env s0 = (Raises FileNotFoundError, failed)).
  { rewrite run_starts_with_load.
    unfold load_audio_files, bind, config_get. simpl.
    rewrite Hcfg, Hmissing. reflexivity. }
  assert (Hmain : main env argv s
                  = (Raises FileNotFoundError,
                     record_event (Log ERROR (MsgFatal FileNotFoundError)) failed)).
  { rewrite (main_after_startup argv s s0 Hstart), Hrun. reflexivity. }
  repeat split.
  - exact Hrun.
  - exact Hmain.
  - unfold exit_status. rewrite Hmain. discriminate.
  - rewrite Hmain. subst failed. unfold banner. simpl snd.
    rewrite !writes_record. simpl. rewrite !app_nil_r.
    pose proof (wn_startup env argv s) as Hw0.
    rewrite Hstart in Hw0. exact Hw0.
Qed.

(** C10. For a configuration file that exists and holds an empty YAML
    document, [load_config] logs the success line and returns [None] without
    raising; every run of a pipeline whose configuration is that [None]
    raises [AttributeError] at the first [self.config.get], right after the
    opening banner, and through [main] the process ends with a non-zero
    status. *)
Theorem empty_document_loads_as_none (config_file : string) (s : Pipeline) :
  read_yaml env config_file = Returns EmptyDocument ->
  load_config env config_file s
  = (Returns PyNone, record_event (Log INFO (MsgConfigLoaded config_file)) s)
  /\ (forall s', config s' = PyNone ->
        run env s' = (Raises AttributeError, banner s'))
  /\ (forall program,
        let s0 :=
          mkPipeline PyNone [] [] [] None
            (trace s ++ [Log INFO (MsgUsingConfig config_file);
                         Log INFO (MsgConfigLoaded config_file)]) in
        main env [program; config_file] s
        = (Raises AttributeError,
           record_event (Log ERROR (MsgFatal AttributeError)) (banner s0))
        /\ exit_status (main env [program; config_file] s) <> 0).
Proof.
  intros Hread.
  assert (Hrun : forall s', config s' = PyNone ->
                   run env s' = (Raises AttributeError, banner s')).
  { intros s' Hnone. rewrite run_starts_with_load.
    unfold load_audio_files, bind, config_get. simpl. now rewrite Hnone. }
  split; [| split].
  - unfold load_config, try_except, bind, lift. now rewrite Hread.
  - exact Hrun.
  - intros program s0.
    assert (Hstart : startup env [program; config_file] s = (Returns tt, s0)).
    { unfold startup, __init__, load_config, try_except, bind, lift, log, emit.
      simpl. rewrite Hread. simpl. subst s0.
      now rewrite <- app_assoc. }
    rewrite (main_after_startup _ _ _ Hstart), (Hrun s0 eq_refl).
    split; [reflexivity | discriminate].
Qed.

End EarlyExits.

(* ------------------------------------------------------------------------- *)
(** ** Concatenation and durations *)

Section Concatenation.

Variable env : Env.

Lemma append_same_format (a b : AudioSegment) :
  same_format a b ->
  append env a b = Returns (_spawn a (_data a ++ _data b)).
Proof.
  intros (Hw & Hr & Hc).
  unfold append, _sync, sync_to, set_channels, set_frame_rate, set_sample_width.
  repeat (rewrite ?Hw, ?Hr, ?Hc, ?Z.max_id, ?Z.eqb_refl; simpl).
  reflexivity.
Qed.

(** Over segments of one format the loop never calls a conversion: it
    returns the first segment's format around all the bytes in order. *)
Lemma concatenate_loop_same_format (rest : list AudioSegment) :
  forall first,
    Forall (same_format first) rest ->
    concatenate_loop env first rest
    = Returns (_spawn first (_data first ++ List.concat (map _data rest))).
Proof.
  induction rest as [| audio rest IH]; intros first Hsame; simpl.
  - rewrite app_nil_r. now destruct first.
  - inversion Hsame as [| ? ? Hfirst Hrest]; subst.
    rewrite (append_same_format first audio Hfirst). simpl.
    rewrite IH.
    + unfold _spawn. simpl. now rewrite <- app_assoc.
    + eapply Forall_impl; [| exact Hrest].
      intros x (Hw & Hr & Hc). repeat split; assumption.
Qed.

Hypothesis Hkeep : conversions_keep_frames env.

Lemma same_frames_refl (seg : AudioSegment) : same_frames seg seg.
Proof. repeat split. auto. Qed.

Lemma same_frames_trans (a b c : AudioSegment) :
  same_frames a b -> same_frames b c -> same_frames a c.
Proof.
  intros (Hr1 & Hn1 & Hw1) (Hr2 & Hn2 & Hw2).
  repeat split; [congruence | congruence | auto].
Qed.

Lemma set_channels_spec (seg : AudioSegment) (n : Z) :
  match set_channels env seg n with
  | Returns seg' =>
      channels seg' = n /\ sample_width seg' = sample_width seg
      /\ same_frames seg seg'
  | Raises e => conversion_raised env e
  end.
Proof.
  unfold set_channels. destruct (Z.eqb_spec n (channels seg)) as [-> | Hne].
  - repeat split. auto.
  - destruct (remix_channels env seg n) as [seg' | e] eqn:Hcall.
    + exact (proj1 Hkeep seg n seg' Hcall).
    + exists seg, n. now left.
Qed.

Lemma set_sample_width_spec (seg : AudioSegment) (w : Z) :
  match set_sample_width env seg w with
  | Returns seg' =>
      sample_width seg' = w /\ channels seg' = channels seg
      /\ same_frames seg seg'
  | Raises e => conversion_raised env e
  end.
Proof.
  unfold set_sample_width.
  destruct (Z.eqb_spec w (sample_width seg)) as [-> | Hne].
  - repeat split. auto.
  - destruct (resize_samples env seg w) as [seg' | e] eqn:Hcall.
    + exact (proj2 Hkeep seg w seg' Hcall).
    + exists seg, w. now right.
Qed.

(** One segment through [_sync] at its own frame rate: the requested
    channels and sample width, and the frames it had. *)
Lemma sync_to_spec (c w : Z) (seg : AudioSegment) :
  match sync_to env c (frame_rate seg) w seg with
  | Returns seg' =>
      channels seg' = c /\ sample_width seg' = w /\ same_frames seg seg'
  | Raises e => conversion_raised env e
  end.
Proof.
  unfold sync_to.
  pose proof (set_channels_spec seg c) as H1.
  destruct (set_channels env seg c) as [s1 | e]; [| exact H1].
  destruct H1 as (Hc1 & Hw1 & Hf1). simpl.
  unfold set_frame_rate.
  replace (frame_rate seg =? frame_rate s1) with true
    by (symmetry; apply Z.eqb_eq; symmetry; apply Hf1).
  simpl.
  pose proof (set_sample_width_spec s1 w) as H2.
  destruct (set_sample_width env s1 w) as [s2 | e]; [| exact H2].
  destruct H2 as (Hw2 & Hc2 & Hf2).
  split; [congruence |]. split; [exact Hw2 |].
  eapply same_frames_trans; eassumption.
Qed.

(** Two well-formed buffers at one frame rate: the sum of their frames. *)
Lemma append_spec (a b : AudioSegment) :
  well_formed a -> well_formed b -> frame_rate b = frame_rate a ->
  match append env a b with
  | Returns r =>
      well_formed r /\ frame_rate r = frame_rate a
      /\ frame_count r = frame_count a + frame_count b
  | Raises e => conversion_raised env e
  end.
Proof.
  intros (Hra & Hca & Hwa & Hfa) (Hrb & Hcb & Hwb & Hfb) Hrate.
  unfold append, _sync. rewrite Hrate, Z.max_id.
  set (c := Z.max (channels a) (channels b)).
  set (w := Z.max (sample_width a) (sample_width b)).
  pose proof (sync_to_spec c w a) as Ha.
  destruct (sync_to env c (frame_rate a) w a) as [s1 | e]; [| exact Ha].
  destruct Ha as (Hc1 & Hw1 & Hr1 & Hn1 & Hwhole1). simpl.
  pose proof (sync_to_spec c w b) as Hb. rewrite Hrate in Hb.
  destruct (sync_to env c (frame_rate a) w b) as [s2 | e]; [| exact Hb].
  destruct Hb as (Hc2 & Hw2 & Hr2 & Hn2 & Hwhole2). simpl.
  specialize (Hwhole1 Hfa). specialize (Hwhole2 Hfb).
  assert (Hc : 0 < c) by (unfold c; lia).
  assert (Hw : 0 < w) by (unfold w; lia).
  assert (Hfw1 : frame_width s1 = c * w) by (unfold frame_width; congruence).
  assert (Hfw2 : frame_width s2 = c * w) by (unfold frame_width; congruence).
  assert (Hfw : 0 < c * w) by nia.
  unfold whole_frames in Hwhole1, Hwhole2. rewrite Hfw1 in Hwhole1.
  rewrite Hfw2 in Hwhole2.
  unfold frame_count in Hn1, Hn2. rewrite Hfw1 in Hn1. rewrite Hfw2 in Hn2.
  set (l1 := Z.of_nat (List.length (_data s1))) in *.
  set (l2 := Z.of_nat (List.length (_data s2))) in *.
  assert (Hlen : Z.of_nat (List.length (_data s1 ++ _data s2)) = l1 + l2)
    by (rewrite length_app, Nat2Z.inj_add; reflexivity).
  pose proof (Z.div_mod l1 (c * w) ltac:(lia)) as Hd1.
  pose proof (Z.div_mod l2 (c * w) ltac:(lia)) as Hd2.
  rewrite Hwhole1, Z.add_0_r in Hd1. rewrite Hwhole2, Z.add_0_r in Hd2.
  assert (Hsum : l1 + l2 = (l1 / (c * w) + l2 / (c * w)) * (c * w)) by lia.
  repeat split.
  - simpl. rewrite Hr1. exact Hra.
  - simpl. rewrite Hc1. exact Hc.
  - simpl. rewrite Hw1. exact Hw.
  - unfold whole_frames, frame_width. simpl. rewrite Hc1, Hw1, Hlen, Hsum.
    apply Z.mod_mul. lia.
  - simpl. exact Hr1.
  - unfold frame_count at 1. unfold frame_width. simpl.
    rewrite Hc1, Hw1, Hlen, Hsum, Z.div_mul by lia.
    rewrite Hn1, Hn2. reflexivity.
Qed.

Lemma concatenate_loop_spec (rest : list AudioSegment) :
  forall first,
    well_formed first ->
    Forall well_formed rest ->
    Forall (fun seg => frame_rate seg = frame_rate first) rest ->
    match concatenate_loop env first rest with
    | Returns r =>
        well_formed r /\ frame_rate r = frame_rate first
        /\ frame_count r = frame_count first + total_frames rest
    | Raises e => conversion_raised env e
    end.
Proof.
  induction rest as [| audio rest IH]; intros first Hfirst Hall Hrates.
  - simpl. repeat split; try apply Hfirst. lia.
  - inversion Hall as [| ? ? Haudio Hall']; subst.
    inversion Hrates as [| ? ? Hrate Hrates']; subst.
    cbn [concatenate_loop].
    pose proof (append_spec first audio Hfirst Haudio Hrate) as Happ.
    destruct (append env first audio) as [r1 | e]; [| exact Happ].
    destruct Happ as (Hwf1 & Hr1 & Hn1). simpl.
    assert (Hrates1 : Forall (fun seg => frame_rate seg = frame_rate r1) rest).
    { eapply Forall_impl; [| exact Hrates']. intros x Hx. congruence. }
    specialize (IH r1 Hwf1 Hall' Hrates1).
    destruct (concatenate_loop env r1 rest) as [r | e]; [| exact IH].
    destruct IH as (Hwf & Hr & Hn).
    split; [exact Hwf |]. split; [congruence |].
    cbn [total_frames fold_right]. fold (total_frames rest). lia.
Qed.

(** C7 (as the code has it). For every non-empty sequence of well-formed
    buffers at one frame rate, whatever their channel counts and sample
    widths, concatenation either returns a buffer at that frame rate whose
    frame count is the sum of the frame counts of the inputs (so its exact
    duration, frames over frame rate, is the sum of the input durations), or
    raises an exception that a format conversion of the library raised; over
    buffers of one format it always returns.  The millisecond duration [len]
    reports for the result is the rounding of that exact total: it is the
    [len] of the summed frame count, not the sum of the separately rounded
    [len] of the inputs.  [concatenate_audio_files] hands on what the loop
    gives. *)
Theorem concatenation_adds_frames (first : AudioSegment)
    (rest : list AudioSegment) :
  Forall well_formed (first :: rest) ->
  Forall (fun seg => frame_rate seg = frame_rate first) rest ->
  match concatenate_loop env first rest with
  | Returns r =>
      frame_rate r = frame_rate first
      /\ frame_count r = total_frames (first :: rest)
      /\ py_len r
         = len_of_frames (total_frames (first :: rest)) (frame_rate first)
  | Raises e => conversion_raised env e
  end
  /\ (Forall (same_format first) rest ->
      exists r, concatenate_loop env first rest = Returns r)
  /\ (forall s, audio_segments s = first :: rest ->
        concatenate_audio_files env s
        = (match concatenate_loop env first rest with
           | Returns r => Returns (Some r)
           | Raises e => Raises e
           end,
           record_event
             (Log INFO (MsgConcatenating (List.length (first :: rest)))) s)).
Proof.
  intros Hall Hrates.
  inversion Hall as [| ? ? Hfirst Hrest]; subst.
  split; [| split].
  - pose proof (concatenate_loop_spec rest first Hfirst Hrest Hrates) as Hloop.
    destruct (concatenate_loop env first rest) as [r | e]; [| exact Hloop].
    destruct Hloop as ((Hr & Hc & Hw & _) & Hrate & Hcount).
    split; [exact Hrate |]. split; [exact Hcount |].
    unfold py_len.
    destruct (Z.eqb_spec (frame_width r) 0) as [Hzero | _].
    + unfold frame_width in Hzero. nia.
    + now rewrite Hrate, Hcount.
  - intros Hsame. eexists. apply concatenate_loop_same_format. exact Hsame.
  - intros s Hsegs.
    unfold concatenate_audio_files, bind, self, log, emit, lift, ret.
    rewrite Hsegs.
    destruct (concatenate_loop env first rest); reflexivity.
Qed.

End Concatenation.

Lemma stereo_capable_keeps_frames (doc : yaml_document) :
  conversions_keep_frames (Studio.stereo_capable doc).
Proof.
  split.
  - intros seg n seg'. simpl.
    destruct (Z.eqb_spec (channels seg) 1) as [Hc |]; [| discriminate].
    destruct (Z.eqb_spec (sample_width seg) 1) as [Hw |]; [| discriminate].
    destruct (Z.eqb_spec n 2) as [-> |]; [| discriminate].
    simpl. intros H. injection H as <-.
    assert (Hlen : forall l : list byte,
               Z.of_nat (List.length (flat_map (fun b => [b; b]) l))
               = Z.of_nat (List.length l) * 2).
    { induction l as [| b l IH]; [reflexivity |].
      cbn [flat_map List.length app]. rewrite !Nat2Z.inj_succ. lia. }
    repeat split; simpl; auto.
    + unfold frame_count, frame_width. simpl. rewrite Hc, Hw, Hlen.
      change (2 * 1) with 2. change (1 * 1) with 1.
      now rewrite Z.div_mul, Z.div_1_r by lia.
    + intros _. unfold whole_frames, frame_width. simpl. rewrite Hlen.
      apply Z.mod_mul. lia.
  - intros seg w seg'. simpl. discriminate.
Qed.

Lemma concatenation_adds_frames_witness :
  let env := Studio.stereo_capable EmptyDocument in
  Forall well_formed [Studio.tick; Studio.chord; Studio.beep]
  /\ py_len Studio.tick = Returns 0
  /\ py_len Studio.chord = Returns 0
  /\ py_len Studio.beep = Returns 1
  /\ exists r,
       concatenate_loop env Studio.tick [Studio.chord; Studio.beep] = Returns r
       /\ channels r = 2
       /\ frame_count r = 3 + 4 + 8
       /\ py_len r = Returns 2.
Proof.
  intros env.
  assert (Hall : Forall well_formed [Studio.tick; Studio.chord; Studio.beep]).
  { repeat constructor; unfold whole_frames; simpl; lia || reflexivity. }
  split; [exact Hall |].
  split; [vm_compute; reflexivity |].
  split; [vm_compute; reflexivity |].
  split; [vm_compute; reflexivity |].
  destruct (concatenation_adds_frames env
              (stereo_capable_keeps_frames EmptyDocument)
              Studio.tick [Studio.chord; Studio.beep] Hall
              ltac:(repeat constructor))
    as (Hloop & _).
  destruct (concatenate_loop env Studio.tick [Studio.chord; Studio.beep])
    as [r | e] eqn:Hrun; [| discriminate Hrun].
  injection Hrun as Hr.
  destruct Hloop as (_ & Hcount & Hlen).
  exists r. split; [reflexivity |]. split; [now rewrite <- Hr |].
  split; [exact Hcount |].
  rewrite Hlen. vm_compute. reflexivity.
Defined.

(** Why the buffers are taken at one frame rate: at different rates [_sync]
    sends the slower buffer through the resampler of the library
    ([audioop.ratecv]), and the frames of the result are those of whatever it
    returns followed by the frames of the faster buffer. *)
Lemma append_resamples_the_slower (env : Env) (a b : AudioSegment) :
  channels a = channels b ->
  sample_width a = sample_width b ->
  frame_rate a < frame_rate b ->
  append env a b
  = outcome_bind (resample env a (frame_rate b)) (fun a1 =>
    outcome_bind (set_sample_width env a1 (sample_width b)) (fun a2 =>
    Returns (_spawn a2 (_data a2 ++ _data b)))).
Proof.
  intros Hc Hw Hr.
  unfold append, _sync, sync_to, set_channels, set_frame_rate.
  rewrite Hc, Hw, !Z.max_id, (Z.max_r _ _ (Z.lt_le_incl _ _ Hr)), !Z.eqb_refl.
  cbn [outcome_bind].
  destruct (Z.eqb_spec (frame_rate b) (frame_rate a)) as [Heq | _]; [lia |].
  destruct (resample env a (frame_rate b)) as [a1 | e]; [| reflexivity].
  cbn [outcome_bind].
  destruct (set_sample_width env a1 (sample_width b)) as [a2 | e];
    [| reflexivity].
  cbn [outcome_bind]. unfold set_sample_width.
  rewrite Z.eqb_refl. cbn [outcome_bind].
  now rewrite Z.eqb_refl.
Qed.

(** At the studio, whose resampler is unavailable, a tick at 8 kHz followed by
    one at 16 kHz stops in that call. *)
Lemma mixed_rates_reach_the_resampler :
  concatenate_loop (Studio.studio EmptyDocument) Studio.tick
    [mkSegment [x80; x80; x80] 1 16000 1]
  = Raises (LibraryError "audioop").
Proof. reflexivity. Qed.

(** Why the buffers are taken to hold whole frames, as every buffer the
    library constructs does: three bytes of 8-bit stereo count as one frame,
    and two such buffers end to end count as three. *)
Lemma ragged_buffers_gain_a_frame :
  let ragged := mkSegment [x80; x80; x80] 1 8000 2 in
  frame_count ragged = 1
  /\ exists r,
       concatenate_loop (Studio.studio EmptyDocument) ragged [ragged]
       = Returns r
       /\ frame_count r = 3.
Proof.
  intros ragged. split; [reflexivity |].
  eexists. split; reflexivity.
Qed.

(** [len] follows the binary64 arithmetic of [__len__], not the exact
    quotient: 4012 frames at 8 kHz are 501.5 ms exactly, the double
    [1000 * 0.5015] lies just below that, and [len] is 501; where the double
    is exact, a tie goes to the even millisecond. *)
Lemma len_follows_the_double :
  float_ms 4012 8000 = 501
  /\ round_half_even (1000 * 4012) 8000 = 502
  /\ float_ms 4 8000 = 0
  /\ float_ms 12 8000 = 2
  /\ float_ms 44100 44100 = 1000.
Proof. vm_compute. repeat split. Qed.

(** C7, the claim as stated fails: two buffers of 3 frames at 8 kHz last
    0 ms each by [len], their concatenation of 6 frames lasts 1 ms. *)
Lemma concatenated_ticks_outlast_their_sum :
  let s := mkPipeline PyNone [Studio.tick; Studio.tick] [] [] None [] in
  let joined := mul_int Studio.tick 2 in
  fst (concatenate_audio_files (Studio.studio EmptyDocument) s)
  = Returns (Some joined)
  /\ py_len joined = Returns 1
  /\ py_len Studio.tick = Returns 0
  /\ total_milliseconds [Studio.tick; Studio.tick] = 0
  /\ milliseconds joined <> total_milliseconds [Studio.tick; Studio.tick].
Proof. vm_compute. repeat split. discriminate. Qed.

(* ------------------------------------------------------------------------- *)
(** ** The early exits, at the studio *)

Lemma nothing_loaded_returns_normally_witness :
  let env := Studio.studio (MappingDocument Studio.empty_config) in
  let s0 :=
    mkPipeline (PyDict Studio.empty_config) [] [] [] None
               [Log INFO (MsgConfigLoaded "config.yaml")] in
  startup env ["audio_pipeline.py"%string] boot = (Returns tt, s0)
  /\ load_audio_files env (banner s0) = (Returns tt, banner s0)
  /\ run env s0
     = (Returns tt, record_event (Log ERROR MsgNothingLoaded) (banner s0))
  /\ exit_status (main env ["audio_pipeline.py"%string] boot) = 0.
Proof.
  intros env s0.
  split; [reflexivity |]. split; [reflexivity |].
  destruct (nothing_loaded_returns_normally env ["audio_pipeline.py"%string]
              boot s0 (banner s0) eq_refl eq_refl eq_refl eq_refl eq_refl)
    as (Hrun & _ & Hexit & _).
  split; assumption.
Defined.

(** C1, the claim as stated fails: with an existing input folder and a
    configuration that names no file, nothing is loaded, the error is logged,
    nothing is written, and yet [main] returns normally: the process ends
    with status 0. *)
Lemma nothing_loaded_exits_with_status_0 :
  let env := Studio.studio (MappingDocument Studio.empty_config) in
  let r := main env ["audio_pipeline.py"%string] boot in
  mix_segments (snd r) = []
  /\ concatenate_segments (snd r) = []
  /\ audio_segments (snd r) = []
  /\ trace (snd r)
     = [Log INFO (MsgConfigLoaded "config.yaml");
        Log INFO MsgBanner; Log INFO MsgStart; Log INFO MsgBanner;
        Log ERROR MsgNothingLoaded]
  /\ fst r = Returns tt
  /\ ~ exit_status r <> 0.
Proof.
  repeat split. intros H. apply H. reflexivity.
Qed.

Lemma missing_input_folder_is_fatal_witness :
  let env := Studio.studio (MappingDocument Studio.nowhere) in
  let s0 :=
    mkPipeline (PyDict Studio.nowhere) [] [] [] None
               [Log INFO (MsgConfigLoaded "config.yaml")] in
  path_exists env "nowhere" = false
  /\ fst (run env s0) = Raises FileNotFoundError
  /\ exit_status (main env ["audio_pipeline.py"%string] boot) <> 0
  /\ writes (trace (snd (main env ["audio_pipeline.py"%string] boot))) = [].
Proof.
  intros env s0. split; [reflexivity |].
  destruct (missing_input_folder_is_fatal env Studio.nowhere
              ["audio_pipeline.py"%string] boot s0 eq_refl eq_refl eq_refl)
    as (Hrun & _ & Hexit & Hwrites).
  split; [now rewrite Hrun |]. split; assumption.
Defined.

Lemma empty_document_loads_as_none_witness :
  let env := Studio.studio EmptyDocument in
  read_yaml env "config.yaml" = Returns EmptyDocument
  /\ fst (load_config env "config.yaml" boot) = Returns PyNone
  /\ fst (run env (Studio.fresh PyNone)) = Raises AttributeError.
Proof.
  intros env. split; [reflexivity |].
  destruct (empty_document_loads_as_none env "config.yaml" boot eq_refl)
    as (Hload & Hrun & _).
  split; [now rewrite Hload | now rewrite (Hrun (Studio.fresh PyNone) eq_refl)].
Defined.

(* ------------------------------------------------------------------------- *)
(** ** Combining the two intermediate results *)

Section Combination.

Variable env : Env.


Lemma final_combine_falsy_mixed (mixed concatenated : option AudioSegment)
    (s : Pipeline) :
  truthy mixed = Returns false ->
  final_combine env mixed concatenated s
  = match truthy concatenated with
    | Returns true => (Returns tt, with_result concatenated s)
    | Returns false => (Returns tt, s)
    | Raises e => (Raises e, s)
    end.
Proof.
  intros Hm. unfold final_combine, bind, lift, ret, set_result.
  rewrite Hm. destruct (truthy concatenated) as [[|] | e]; reflexivity.
Qed.

Lemma final_combine_falsy_concatenated (mixed concatenated : option AudioSegment)
    (s : Pipeline) :
  truthy mixed = Returns true ->
  truthy concatenated = Returns false ->
  final_combine env mixed concatenated s = (Returns tt, with_result mixed s).
Proof.
  intros Hm Hk. unfold final_combine, bind, lift, ret, set_result.
  now rewrite Hm, Hk.
Qed.


(** With a falsy result the last two steps of [run] do nothing but close. *)
Lemma effects_and_save_falsy (s : Pipeline) :
  truthy (result s) = Returns false ->
  effects_and_save env s = (Returns tt, closing s).
Proof.
  intros Hfalsy. unfold effects_and_save, bind, self, lift, ret. simpl.
  rewrite Hfalsy. simpl. rewrite Hfalsy. reflexivity.
Qed.

Lemma zero_length_is_falsy (seg : AudioSegment) :
  py_len seg = Returns 0 -> py_bool seg = Returns false.
Proof. intros Hlen. unfold py_bool. now rewrite Hlen. Qed.

Lemma load_and_combine_starts_with_load (s : Pipeline) :
  load_and_combine env s
  = (load_audio_files env ;;
     s1 <- self ;;
     if nonempty (mix_segments s1) || nonempty (concatenate_segments s1)
     then combine_new_format env ;; ret true
     else if nonempty (audio_segments s1)
     then combine_legacy env ;; ret true
     else log ERROR MsgNothingLoaded ;; ret false) (banner s).
Proof. reflexivity. Qed.

(** Loading never touches [self.result]. *)
Lemma load_audio_files_keeps_result (s : Pipeline) :
  result (snd (load_audio_files env s)) = result s.
Proof.
  destruct (config s) as [| c |] eqn:Hcfg;
    try (unfold load_audio_files, bind, config_get; now rewrite Hcfg).
  destruct (path_exists env (dict_get (input_folder c) "input_audio"%string))
    eqn:Hfolder.
  - destruct (load_audio_files_spec env c s Hcfg Hfolder)
      as (s1 & Hrun & _ & Hr & _).
    now rewrite Hrun.
  - unfold load_audio_files, bind, config_get. rewrite Hcfg, Hfolder.
    reflexivity.
Qed.

(** The new-style branch when every intermediate result it computes lasts
    0 ms: the lines of the two loops are logged and nothing is stored. *)
Lemma combine_new_format_all_silent (s : Pipeline) :
  (forall m0 ms, mix_segments s = m0 :: ms ->
     exists m, overlay_loop env m0 ms = Returns m /\ py_len m = Returns 0) ->
  (forall k0 ks, concatenate_segments s = k0 :: ks ->
     exists k, concatenate_loop env k0 ks = Returns k /\ py_len k = Returns 0) ->
  exists s2,
    combine_new_format env s = (Returns tt, s2)
    /\ result s2 = result s
    /\ trace s2
       = trace s
         ++ match mix_segments s with
            | [] => []
            | _ :: _ => [Log INFO (MsgRunMixing (List.length (mix_segments s)))]
            end
         ++ match concatenate_segments s with
            | [] => []
            | _ :: _ =>
                [Log INFO
                   (MsgRunConcatenating (List.length (concatenate_segments s)))]
            end.
Proof.
  intros Hmixed Hconcatenated.
  unfold combine_new_format, bind at 1, self at 1.
  destruct (mix_segments s) as [| m0 ms] eqn:Hmix;
    destruct (concatenate_segments s) as [| k0 ks] eqn:Hconc.
  - eexists. split; [reflexivity |]. split; [reflexivity |].
    simpl. now rewrite app_nil_r.
  - destruct (Hconcatenated k0 ks eq_refl) as (k & Hk & Hlen).
    apply zero_length_is_falsy in Hlen.
    unfold bind, ret, log, emit, lift. simpl. rewrite Hk.
    cbv beta iota.
    rewrite (final_combine_falsy_mixed None (Some k) _ eq_refl).
    simpl truthy. rewrite Hlen.
    eexists. split; [reflexivity |]. split; reflexivity.
  - destruct (Hmixed m0 ms eq_refl) as (m & Hm & Hlen).
    apply zero_length_is_falsy in Hlen.
    unfold bind, ret, log, emit, lift. simpl. rewrite Hm.
    cbv beta iota.
    rewrite (final_combine_falsy_mixed (Some m) None _ Hlen).
    eexists. split; [reflexivity |]. split; reflexivity.
  - destruct (Hmixed m0 ms eq_refl) as (m & Hm & Hlenm).
    destruct (Hconcatenated k0 ks eq_refl) as (k & Hk & Hlenk).
    apply zero_length_is_falsy in Hlenm. apply zero_length_is_falsy in Hlenk.
    unfold bind, ret, log, emit, lift. simpl. rewrite Hm. simpl. rewrite Hk.
    cbv beta iota.
    rewrite (final_combine_falsy_mixed (Some m) (Some k) _ Hlenm).
    simpl truthy. rewrite Hlenk.
    eexists. split; [reflexivity |]. split; [reflexivity |].
    simpl. now rewrite <- app_assoc.
Qed.

(** C9. A buffer of zero millisecond duration is treated as absent by the
    truthiness tests of [run].  In the final combine a zero-duration mixed or
    concatenated result acts exactly as [None] does: the dual branch is not
    taken, a truthy partner becomes the result alone, and with no truthy
    partner nothing is stored.  When the combination of a run leaves a
    zero-duration buffer or nothing at all in [self.result], [run] applies no
    effect, calls no export, logs the closing banner and returns without
    raising.  In particular a new-style run over a fresh pipeline whose
    intermediate results all last 0 ms stores no result and ends that way. *)
Theorem zero_duration_result_is_absent :
  (forall m concatenated s,
     py_len m = Returns 0 ->
     final_combine env (Some m) concatenated s
     = final_combine env None concatenated s)
  /\ (forall mixed k s,
        py_len k = Returns 0 ->
        final_combine env mixed (Some k) s = final_combine env mixed None s)
  /\ (forall s, final_combine env None None s = (Returns tt, s))
  /\ (forall k s,
        py_bool k = Returns true ->
        final_combine env None (Some k) s
        = (Returns tt, with_result (Some k) s))
  /\ (forall m s,
        py_bool m = Returns true ->
        final_combine env (Some m) None s
        = (Returns tt, with_result (Some m) s))
  /\ (forall m k s,
        py_len m = Returns 0 ->
        final_combine env (Some m) (Some k) s
        = match py_bool k with
          | Returns true => (Returns tt, with_result (Some k) s)
          | Returns false => (Returns tt, s)
          | Raises e => (Raises e, s)
          end)
  /\ (forall m k s,
        py_bool m = Returns true -> py_len k = Returns 0 ->
        final_combine env (Some m) (Some k) s
        = (Returns tt, with_result (Some m) s))
  /\ (forall s s2,
        load_and_combine env s = (Returns true, s2) ->
        (result s2 = None
         \/ exists r, result s2 = Some r /\ py_len r = Returns 0) ->
        run env s = (Returns tt, closing s2)
        /\ result (closing s2) = result s2
        /\ trace (closing s2)
           = trace s2 ++ [Log INFO MsgBanner; Log INFO MsgFinished;
                          Log INFO MsgBanner]
        /\ writes (trace (closing s2)) = writes (trace s))
  /\ (forall s s1,
        result s = None ->
        load_audio_files env (banner s) = (Returns tt, s1) ->
        mix_segments s1 <> [] \/ concatenate_segments s1 <> [] ->
        (forall m0 ms, mix_segments s1 = m0 :: ms ->
           exists m, overlay_loop env m0 ms = Returns m
                     /\ py_len m = Returns 0) ->
        (forall k0 ks, concatenate_segments s1 = k0 :: ks ->
           exists k, concatenate_loop env k0 ks = Returns k
                     /\ py_len k = Returns 0) ->
        exists s2,
          run env s = (Returns tt, closing s2)
          /\ result (closing s2) = None
          /\ trace s2
             = trace s1
               ++ match mix_segments s1 with
                  | [] => []
                  | _ :: _ =>
                      [Log INFO (MsgRunMixing (List.length (mix_segments s1)))]
                  end
               ++ match concatenate_segments s1 with
                  | [] => []
                  | _ :: _ =>
                      [Log INFO (MsgRunConcatenating
                                   (List.length (concatenate_segments s1)))]
                  end
          /\ writes (trace (closing s2)) = writes (trace s)).
Proof.
  assert (Hrun : forall s s2,
             load_and_combine env s = (Returns true, s2) ->
             truthy (result s2) = Returns false ->
             run env s = (Returns tt, closing s2)
             /\ result (closing s2) = result s2
             /\ trace (closing s2)
                = trace s2 ++ [Log INFO MsgBanner; Log INFO MsgFinished;
                               Log INFO MsgBanner]
             /\ writes (trace (closing s2)) = writes (trace s)).
  { intros s s2 Hcombined Hfalsy. repeat split.
    - unfold run. rewrite (bind_returns _ Hcombined).
      now apply effects_and_save_falsy.
    - unfold closing. simpl. now rewrite <- !app_assoc.
    - unfold closing. rewrite !writes_record. simpl. rewrite !app_nil_r.
      pose proof (wn_load_and_combine env s) as Hw.
      now rewrite Hcombined in Hw. }
  repeat apply conj.
  - intros m concatenated s Hlen.
    rewrite (final_combine_falsy_mixed (Some m) concatenated s
               (zero_length_is_falsy m Hlen)).
    now rewrite (final_combine_falsy_mixed None concatenated s eq_refl).
  - intros mixed k s Hlen.
    assert (Hk : truthy (Some k) = Returns false)
      by now apply zero_length_is_falsy.
    destruct (truthy mixed) as [[|] | e] eqn:Hm.
    + now rewrite !final_combine_falsy_concatenated.
    + rewrite !final_combine_falsy_mixed by exact Hm. now rewrite Hk.
    + unfold final_combine, bind, lift. now rewrite Hm.
  - intros s. reflexivity.
  - intros k s Hk.
    rewrite (final_combine_falsy_mixed None (Some k) s eq_refl).
    simpl truthy. now rewrite Hk.
  - intros m s Hm. now apply final_combine_falsy_concatenated.
  - intros m k s Hlen.
    apply (final_combine_falsy_mixed (Some m) (Some k) s).
    now apply zero_length_is_falsy.
  - intros m k s Hm Hlen.
    apply final_combine_falsy_concatenated; [exact Hm |].
    now apply zero_length_is_falsy.
  - intros s s2 Hcombined Hresult. apply Hrun; [exact Hcombined |].
    destruct Hresult as [-> | (r & -> & Hlen)];
      [reflexivity | now apply zero_length_is_falsy].
  - intros s s1 Hfresh Hload Hloaded Hmixed Hconcatenated.
    destruct (combine_new_format_all_silent s1 Hmixed Hconcatenated)
      as (s2 & Hcombine & Hresult & Htrace).
    assert (Hnone : result s2 = None).
    { rewrite Hresult.
      pose proof (load_audio_files_keeps_result (banner s)) as Hkeep.
      rewrite Hload in Hkeep. simpl in Hkeep. now rewrite Hkeep. }
    assert (Hcombined : load_and_combine env s = (Returns true, s2)).
    { rewrite load_and_combine_starts_with_load.
      unfold bind at 1. rewrite Hload.
      unfold bind at 1, self at 1.
      assert (Hbranch : nonempty (mix_segments s1)
                        || nonempty (concatenate_segments s1) = true).
      { destruct (mix_segments s1), (concatenate_segments s1);
          try reflexivity.
        destruct Hloaded as [H | H]; now contradiction H. }
      rewrite Hbranch. unfold bind at 1. now rewrite Hcombine. }
    exists s2.
    destruct (Hrun s s2 Hcombined) as (Hreturns & Hres & _ & Hwrites).
    { now rewrite Hnone. }
    rewrite <- Hnone, <- Hres at 1. repeat split; assumption.
Qed.

End Combination.


(** C2, a defect of the code.  The comment at line 339 announces the combine
    of the mix and the concatenation "si les deux existent", and [None] is
    the only marker of absence the method has; lines 340-350 test truthiness
    instead.  With [tick.wav] in the mix list and [beep.wav] in the
    concatenate list both files load and both loops produce a buffer, so both
    results exist; the mixed one lasts 0 ms, and the run drops it without a
    word: the pipeline result is the concatenated buffer alone, not the mixed
    buffer followed by the concatenated one, which [mixed + concatenated]
    would have returned. *)
Lemma dual_combine_skips_a_short_mix :
  let env := Studio.studio (MappingDocument Studio.tick_and_beep) in
  let r := run env (Studio.fresh (PyDict Studio.tick_and_beep)) in
  fst r = Returns tt
  /\ mix_segments (snd r) = [Studio.tick]
  /\ concatenate_segments (snd r) = [Studio.beep]
  /\ overlay_loop env Studio.tick [] = Returns Studio.tick
  /\ concatenate_loop env Studio.beep [] = Returns Studio.beep
  /\ append env Studio.tick Studio.beep
     = Returns (mkSegment (_data Studio.tick ++ _data Studio.beep) 1 8000 1)
  /\ result (snd r) = Some Studio.beep
  /\ result (snd r)
     <> Some (mkSegment (_data Studio.tick ++ _data Studio.beep) 1 8000 1).
Proof. vm_compute. repeat split. discriminate. Qed.

Lemma zero_duration_result_is_absent_witness :
  let legacy := Studio.studio (MappingDocument Studio.lone_tick) in
  let s := Studio.fresh (PyDict Studio.lone_tick) in
  let both := Studio.studio (MappingDocument Studio.ticks_in_both_lists) in
  let t := Studio.fresh (PyDict Studio.ticks_in_both_lists) in
  py_len Studio.tick = Returns 0
  /\ result (snd (load_and_combine legacy s)) = Some Studio.tick
  /\ run legacy s = (Returns tt, closing (snd (load_and_combine legacy s)))
  /\ writes (trace (snd (run legacy s))) = []
  /\ mix_segments (snd (load_audio_files both (banner t))) = [Studio.tick]
  /\ concatenate_segments (snd (load_audio_files both (banner t)))
     = [Studio.tick]
  /\ fst (run both t) = Returns tt
  /\ result (snd (run both t)) = None
  /\ writes (trace (snd (run both t))) = [].
Proof.
  intros legacy s both t.
  assert (Hlen : py_len Studio.tick = Returns 0) by (vm_compute; reflexivity).
  destruct (zero_duration_result_is_absent legacy)
    as (_ & _ & _ & _ & _ & _ & _ & Hrun & _).
  destruct (Hrun s (snd (load_and_combine legacy s)) eq_refl
              (or_intror (ex_intro _ Studio.tick (conj eq_refl Hlen))))
    as (Hreturns & _ & _ & Hwrites).
  destruct (zero_duration_result_is_absent both)
    as (_ & _ & _ & _ & _ & _ & _ & _ & Hnew).
  assert (Hmix : mix_segments (snd (load_audio_files both (banner t)))
                 = [Studio.tick]) by (vm_compute; reflexivity).
  assert (Hconc : concatenate_segments (snd (load_audio_files both (banner t)))
                  = [Studio.tick]) by (vm_compute; reflexivity).
  assert (Hload : load_audio_files both (banner t)
                  = (Returns tt, snd (load_audio_files both (banner t))))
    by (vm_compute; reflexivity).
  assert (Hloaded : mix_segments (snd (load_audio_files both (banner t))) <> [])
    by (rewrite Hmix; discriminate).
  destruct (Hnew t (snd (load_audio_files both (banner t))) eq_refl Hload
              (or_introl Hloaded))
    as (s2 & Hreturns2 & Hresult2 & _ & Hwrites2).
  { intros m0 ms Hm. rewrite Hmix in Hm. injection Hm as <- <-.
    exists Studio.tick. split; [reflexivity | exact Hlen]. }
  { intros k0 ks Hk. rewrite Hconc in Hk. injection Hk as <- <-.
    exists Studio.tick. split; [reflexivity | exact Hlen]. }
  split; [exact Hlen |]. split; [vm_compute; reflexivity |].
  split; [exact Hreturns |].
  split; [rewrite Hreturns; exact Hwrites |].
  split; [exact Hmix |]. split; [exact Hconc |].
  rewrite Hreturns2. repeat split; assumption.
Defined.

(* ------------------------------------------------------------------------- *)
(** ** More on the effects *)

Lemma concat_repeat_length (data : list byte) (k : nat) :
  List.length (List.concat (repeat data k)) = (k * List.length data)%nat.
Proof.
  induction k as [| k IH]; simpl; [reflexivity |].
  now rewrite length_app, IH.
Qed.

Lemma bytes_mul_length (data : list byte) (n : Z) :
  0 <= n ->
  Z.of_nat (List.length (bytes_mul data n)) = n * Z.of_nat (List.length data).
Proof.
  intros Hn. unfold bytes_mul.
  rewrite concat_repeat_length, Nat2Z.inj_mul, Z2Nat.id by exact Hn.
  reflexivity.
Qed.

Lemma bytes_mul_nonpositive (data : list byte) (n : Z) :
  n <= 0 -> bytes_mul data n = [].
Proof.
  intros Hn. unfold bytes_mul.
  replace (Z.to_nat n) with 0%nat by lia. reflexivity.
Qed.

Lemma concat_repeat_nil (k : nat) :
  List.concat (repeat (@nil byte) k) = [].
Proof. induction k; simpl; auto. Qed.

Lemma concat_repeat_mul (data : list byte) (m n : nat) :
  List.concat (repeat (List.concat (repeat data m)) n)
  = List.concat (repeat data (m * n)).
Proof.
  induction n as [| n IH]; simpl.
  - now rewrite Nat.mul_0_r.
  - rewrite IH, Nat.mul_succ_r, Nat.add_comm, repeat_app, concat_app.
    reflexivity.
Qed.

Lemma bytes_mul_mul (data : list byte) (m n : Z) :
  0 <= m \/ 0 <= n ->
  bytes_mul (bytes_mul data m) n = bytes_mul data (m * n).
Proof.
  intros Hsign. unfold bytes_mul.
  destruct (Z.le_gt_cases 0 m) as [Hm | Hm];
    destruct (Z.le_gt_cases 0 n) as [Hn | Hn].
  - now rewrite concat_repeat_mul, Z2Nat.inj_mul.
  - replace (Z.to_nat n) with 0%nat by lia.
    replace (Z.to_nat (m * n)) with 0%nat by nia. reflexivity.
  - replace (Z.to_nat m) with 0%nat by lia.
    replace (Z.to_nat (m * n)) with 0%nat by nia.
    simpl. apply concat_repeat_nil.
  - lia.
Qed.

(** X8. Repeating a buffer of whole frames [times >= 0] times keeps its
    format, still holds whole frames, and multiplies its frame count by
    [times]. *)
Theorem repeat_multiplies_frames (audio : AudioSegment) (params : Effect)
    (s : Pipeline) :
  0 <= dict_get (e_times params) 1 ->
  0 < frame_width audio ->
  whole_frames audio ->
  let times := dict_get (e_times params) 1 in
  let r := mul_int audio times in
  apply_repeat_effect audio params s
  = (Returns r, record_event (Log INFO (MsgRepeat times)) s)
  /\ same_format audio r
  /\ whole_frames r
  /\ frame_count r = times * frame_count audio.
Proof.
  intros Htimes Hfw Hwhole times r.
  assert (Hlen : Z.of_nat (List.length (_data r))
                 = (times * frame_count audio) * frame_width audio).
  { subst r. unfold mul_int. simpl _data.
    rewrite (bytes_mul_length _ _ Htimes).
    unfold whole_frames in Hwhole. unfold frame_count.
    pose proof (Z.div_mod (Z.of_nat (List.length (_data audio)))
                          (frame_width audio) ltac:(lia)) as Hdiv.
    rewrite Hwhole, Z.add_0_r in Hdiv. rewrite Hdiv at 1.
    fold times. ring. }
  assert (Hfw_r : frame_width r = frame_width audio) by reflexivity.
  split; [reflexivity |]. split; [repeat split |]. split.
  - unfold whole_frames. rewrite Hfw_r, Hlen. apply Z.mod_mul. lia.
  - unfold frame_count at 1. rewrite Hfw_r, Hlen. apply Z.div_mul. lia.
Qed.

Lemma repeat_multiplies_frames_witness :
  let twice := Studio.repeat_effect 2 in
  0 <= dict_get (e_times twice) 1
  /\ whole_frames Studio.beep
  /\ frame_count (mul_int Studio.beep 2) = 2 * frame_count Studio.beep.
Proof.
  intros twice.
  assert (Hwhole : whole_frames Studio.beep) by reflexivity.
  assert (Htimes : 0 <= dict_get (e_times twice) 1) by (simpl; lia).
  split; [exact Htimes |]. split; [exact Hwhole |].
  exact (proj2 (proj2 (proj2
           (repeat_multiplies_frames Studio.beep twice boot
              Htimes eq_refl Hwhole)))).
Defined.

(** X9. Repeating a buffer [times <= 0] times returns a buffer without any
    byte; in a format with non-zero frame rate and frame width its length is
    0 ms, so the buffer is false. *)
Theorem repeat_nonpositive_empties (audio : AudioSegment) (params : Effect)
    (s : Pipeline) :
  dict_get (e_times params) 1 <= 0 ->
  frame_rate audio <> 0 ->
  frame_width audio <> 0 ->
  let r := _spawn audio [] in
  apply_repeat_effect audio params s
  = (Returns r,
     record_event (Log INFO (MsgRepeat (dict_get (e_times params) 1))) s)
  /\ py_len r = Returns 0
  /\ py_bool r = Returns false.
Proof.
  intros Htimes Hrate Hfw r.
  assert (Hlen : py_len r = Returns 0).
  { unfold py_len, len_of_frames.
    change (frame_width r) with (frame_width audio).
    change (frame_rate r) with (frame_rate audio).
    destruct (Z.eqb_spec (frame_width audio) 0); [contradiction |].
    destruct (Z.eqb_spec (frame_rate audio) 0); [contradiction |].
    assert (Hms : float_ms (frame_count r) (frame_rate audio) = 0).
    { unfold frame_count. simpl _data. simpl List.length.
      change (frame_width r) with (frame_width audio).
      rewrite Z.div_0_l by assumption.
      unfold float_ms. change (round53 0 1) with (0, 1).
      destruct (round53 (frame_rate audio) 1) as [rn rd].
      destruct (1 * rn <? 0); reflexivity. }
    rewrite Hms. reflexivity. }
  split; [| split].
  - unfold apply_repeat_effect, bind, log, emit, ret, mul_int.
    now rewrite (bytes_mul_nonpositive _ _ Htimes).
  - exact Hlen.
  - unfold py_bool. now rewrite Hlen.
Qed.

Lemma repeat_nonpositive_empties_witness :
  let never := Studio.repeat_effect 0 in
  dict_get (e_times never) 1 <= 0
  /\ fst (apply_repeat_effect Studio.beep never boot)
     = Returns (mkSegment [] 1 8000 1)
  /\ py_bool (mkSegment [] 1 8000 1) = Returns false.
Proof.
  intros never.
  assert (Htimes : dict_get (e_times never) 1 <= 0) by (simpl; lia).
  destruct (repeat_nonpositive_empties Studio.beep never boot Htimes
              ltac:(discriminate) ltac:(discriminate))
    as (Hrun & _ & Hfalse).
  split; [exact Htimes |]. split; [now rewrite Hrun | exact Hfalse].
Defined.

Section MoreEffects.

Variable env : Env.

(** X11. Two repeat effects in a row act as one repeat by the product of
    their counts, as long as the counts are not both negative. *)
Theorem repeat_composes (e1 e2 : Effect) (audio : AudioSegment) (s : Pipeline) :
  e_type e1 = Some "repeat"%string ->
  e_type e2 = Some "repeat"%string ->
  0 <= dict_get (e_times e1) 1 \/ 0 <= dict_get (e_times e2) 1 ->
  fst (effects_loop env [e1; e2] audio s)
  = Returns (mul_int audio (dict_get (e_times e1) 1 * dict_get (e_times e2) 1)).
Proof.
  intros Ht1 Ht2 Hsign.
  unfold effects_loop, effect_step, bind. rewrite Ht1, Ht2. simpl.
  unfold mul_int at 1. unfold _spawn at 1. simpl.
  rewrite (bytes_mul_mul _ _ _ Hsign). reflexivity.
Qed.

(** X7. The chain stops at the first effect that raises: whatever follows it
    in the list is neither applied nor logged, and the exception leaves the
    loop. *)
Theorem effect_chain_stops_at_first_failure (before after : list Effect)
    (audio : AudioSegment) (s s1 : Pipeline) (e : exn) :
  effects_loop env before audio s = (Raises e, s1) ->
  effects_loop env (before ++ after) audio s = (Raises e, s1).
Proof.
  intros Hfail. rewrite effects_loop_app. unfold bind. now rewrite Hfail.
Qed.

(** X12. A fade effect whose [fade_in] and [fade_out] are missing, zero or
    negative returns the buffer it received, logs nothing and calls no fade
    of the library. *)
Theorem fade_without_positive_duration_is_identity (audio : AudioSegment)
    (params : Effect) (s : Pipeline) :
  (dict_get (e_fade_in params) 0 <= 0)%Q ->
  (dict_get (e_fade_out params) 0 <= 0)%Q ->
  apply_fade_effect env audio params s = (Returns audio, s).
Proof.
  intros Hin Hout. unfold apply_fade_effect.
  apply Qle_bool_iff in Hin. apply Qle_bool_iff in Hout.
  rewrite Hin. simpl negb. cbv iota. rewrite bind_ret_l.
  now rewrite Hout.
Qed.

(** X17. A speed effect whose scaled frame rate [int(frame_rate * factor)]
    is the frame rate itself returns the buffer it received without calling
    the resampler. *)
Theorem speed_at_same_rate_is_identity (audio : AudioSegment) (params : Effect)
    (s : Pipeline) :
  int_scaled env (frame_rate audio) (dict_get (e_factor params) 1%Q)
  = Returns (frame_rate audio) ->
  apply_speed_effect env audio params s
  = (Returns audio,
     record_event (Log INFO (MsgSpeed (dict_get (e_factor params) 1%Q))) s).
Proof.
  intros Hrate.
  unfold apply_speed_effect, bind, log, emit, lift. rewrite Hrate.
  unfold set_frame_rate, _spawn_frame_rate. simpl.
  rewrite Z.eqb_refl. now destruct audio.
Qed.

End MoreEffects.

Lemma repeat_composes_witness :
  fst (effects_loop (Studio.studio EmptyDocument)
         [Studio.repeat_effect 2; Studio.repeat_effect 3] Studio.tick boot)
  = Returns (mul_int Studio.tick 6).
Proof.
  apply (repeat_composes (Studio.studio EmptyDocument)
           (Studio.repeat_effect 2) (Studio.repeat_effect 3) Studio.tick boot
           eq_refl eq_refl).
  left. simpl. lia.
Defined.

Lemma effect_chain_stops_at_first_failure_witness :
  let env := Studio.studio EmptyDocument in
  effects_loop env ([Studio.reverse_effect] ++ [Studio.repeat_effect 2])
               Studio.beep boot
  = (Raises (LibraryError "audioop"),
     record_event (Log INFO MsgReverse) boot).
Proof.
  intros env.
  apply (effect_chain_stops_at_first_failure env [Studio.reverse_effect]
           [Studio.repeat_effect 2] Studio.beep boot).
  reflexivity.
Defined.

Lemma fade_without_positive_duration_is_identity_witness :
  let env := Studio.studio EmptyDocument in
  let params := mkEffect (Some "fade"%string) None None (Some (-5 # 1)%Q)
                         None None None in
  apply_fade_effect env Studio.beep params boot = (Returns Studio.beep, boot).
Proof.
  intros env params.
  apply fade_without_positive_duration_is_identity; discriminate.
Defined.

Lemma speed_at_same_rate_is_identity_witness :
  let env := Studio.steady EmptyDocument in
  fst (apply_speed_effect env Studio.beep (Studio.speed_effect 1) boot)
  = Returns Studio.beep.
Proof.
  intros env.
  now rewrite (speed_at_same_rate_is_identity env Studio.beep
                 (Studio.speed_effect 1) boot eq_refl).
Defined.

(* ------------------------------------------------------------------------- *)
(** ** Configuration files that cannot be used *)

Section UnusableConfiguration.

Variable env : Env.

(** X1. When the configuration file cannot be read, [load_config] logs one
    error line for a missing file or a YAML error (and none for any other
    exception), the exception leaves [main] after the fatal line, the
    process ends with a non-zero status, and no field of the pipeline was
    set. *)
Theorem unreadable_config_is_fatal (argv : list string) (s : Pipeline)
    (e : exn) :
  read_yaml env (config_file_of argv) = Raises e ->
  let r := main env argv s in
  fst r = Raises e
  /\ trace (snd r)
     = trace s ++ startup_log argv
       ++ match e with
          | FileNotFoundError =>
              [Log ERROR (MsgConfigMissing (config_file_of argv))]
          | YAMLError => [Log ERROR MsgYamlError]
          | _ => []
          end
       ++ [Log ERROR (MsgFatal e)]
  /\ config (snd r) = config s
  /\ result (snd r) = result s
  /\ (forall which, segments which (snd r) = segments which s)
  /\ exit_status r <> 0.
Proof.
  intros Hread r. subst r.
  unfold exit_status, main, startup, __init__, load_config, try_except, bind,
    lift, log, emit, raise, ret.
  destruct argv as [| program [| arg rest]]; simpl in Hread |- *;
    rewrite Hread; destruct e; simpl;
    (split; [reflexivity |]); (split; [now rewrite <- ?app_assoc |]);
    (split; [reflexivity |]); (split; [reflexivity |]);
    (split; [intros which; now destruct which | discriminate]).
Qed.

(** X16. A configuration file whose top level is not a mapping (empty, a
    scalar or a sequence) loads without error, and the run then raises
    [AttributeError] at its first [self.config.get], right after the opening
    banner: nothing is decoded, nothing is written, and the process ends with
    a non-zero status. *)
Theorem non_mapping_config_fails_at_first_get (argv : list string)
    (s : Pipeline) (doc : yaml_document) :
  read_yaml env (config_file_of argv) = Returns doc ->
  (forall c, doc <> MappingDocument c) ->
  let r := main env argv s in
  fst r = Raises AttributeError
  /\ trace (snd r)
     = trace s ++ startup_log argv
       ++ [Log INFO (MsgConfigLoaded (config_file_of argv));
           Log INFO MsgBanner; Log INFO MsgStart; Log INFO MsgBanner;
           Log ERROR (MsgFatal AttributeError)]
  /\ exit_status r <> 0.
Proof.
  intros Hread Hdoc r. subst r.
  unfold exit_status, main, startup, __init__, load_config, try_except, bind,
    lift, log, emit, raise, ret, run, load_and_combine, load_audio_files,
    config_get.
  destruct argv as [| program [| arg rest]]; simpl in Hread |- *;
    rewrite Hread; simpl;
    (destruct doc as [| c |]; [| exfalso; now apply (Hdoc c) |]); simpl;
    (split; [reflexivity |]); (split; [| discriminate]);
    now rewrite <- ?app_assoc.
Qed.

End UnusableConfiguration.

Lemma unreadable_config_is_fatal_witness :
  let env := Studio.studio EmptyDocument in
  let argv := ["audio_pipeline.py"; "elsewhere.yaml"]%string in
  read_yaml env (config_file_of argv) = Raises FileNotFoundError
  /\ fst (main env argv boot) = Raises FileNotFoundError
  /\ trace (snd (main env argv boot))
     = [Log INFO (MsgUsingConfig "elsewhere.yaml");
        Log ERROR (MsgConfigMissing "elsewhere.yaml");
        Log ERROR (MsgFatal FileNotFoundError)].
Proof.
  intros env argv. split; [reflexivity |].
  destruct (unreadable_config_is_fatal env argv boot FileNotFoundError eq_refl)
    as (Hfst & Htrace & _).
  split; [exact Hfst | exact Htrace].
Defined.

Lemma non_mapping_config_fails_at_first_get_witness :
  let env := Studio.studio OtherDocument in
  let argv := ["audio_pipeline.py"%string] in
  read_yaml env (config_file_of argv) = Returns OtherDocument
  /\ fst (main env argv boot) = Raises AttributeError
  /\ exit_status (main env argv boot) <> 0.
Proof.
  intros env argv. split; [reflexivity |].
  destruct (non_mapping_config_fails_at_first_get env argv boot OtherDocument
              eq_refl ltac:(discriminate))
    as (Hfst & _ & Hexit).
  split; assumption.
Defined.

(* ------------------------------------------------------------------------- *)
(** ** Files that do not decode *)

Section UndecodableFiles.

Variable env : Env.

Lemma decoded_in (input_folder : string) (files : list string)
    (audio : AudioSegment) :
  In audio (decoded env input_folder files)
  <-> exists audio_file,
        In audio_file files
        /\ from_file env (path_join input_folder audio_file) = Returns audio.
Proof.
  unfold decoded. rewrite in_flat_map. split.
  - intros (f & Hf & Hin). exists f. split; [exact Hf |].
    destruct (from_file env (path_join input_folder f)) as [a | e];
      simpl in Hin; [| contradiction].
    destruct Hin as [-> | []]. reflexivity.
  - intros (f & Hf & Hdec). exists f. split; [exact Hf |].
    rewrite Hdec. now left.
Qed.

Lemma decoded_length (input_folder : string) (files : list string) :
  (List.length (decoded env input_folder files) <= List.length files)%nat.
Proof.
  induction files as [| f files IH]; [apply Nat.le_refl |].
  rewrite decoded_cons, length_app. unfold decoded at 1. simpl.
  destruct (from_file env (path_join input_folder f)); simpl; lia.
Qed.

Lemma decoded_all_fail (input_folder : string) (files : list string) :
  (forall audio_file, In audio_file files ->
     exists e, from_file env (path_join input_folder audio_file) = Raises e) ->
  decoded env input_folder files = [].
Proof.
  intros Hfail. induction files as [| f files IH]; [reflexivity |].
  rewrite decoded_cons, IH by (intros g Hg; apply Hfail; now right).
  unfold decoded. simpl.
  destruct (Hfail f (or_introl eq_refl)) as (e & ->). reflexivity.
Qed.

(** X2. With the input folder in place [load_audio_files] returns normally
    whatever the decoder does: a file that fails to decode is skipped, and
    [mix_segments] and [concatenate_segments] receive, in list order, exactly
    the buffers of the files of [mix_files] and [concatenate_files] that
    decode.  Loading writes nothing and leaves the configuration and the
    result alone. *)
Theorem loading_keeps_what_decodes (c : Config) (s : Pipeline) :
  config s = PyDict c ->
  path_exists env (dict_get (input_folder c) "input_audio"%string) = true ->
  let folder := dict_get (input_folder c) "input_audio"%string in
  let mix := dict_get (mix_files c) [] in
  let conc := dict_get (concatenate_files c) [] in
  let s' := snd (load_audio_files env s) in
  fst (load_audio_files env s) = Returns tt
  /\ mix_segments s' = mix_segments s ++ decoded env folder mix
  /\ concatenate_segments s'
     = concatenate_segments s ++ decoded env folder conc
  /\ (forall files audio,
        In audio (decoded env folder files)
        <-> exists audio_file,
              In audio_file files
              /\ from_file env (path_join folder audio_file) = Returns audio)
  /\ (List.length (mix_segments s')
      <= List.length (mix_segments s) + List.length mix)%nat
  /\ (List.length (concatenate_segments s')
      <= List.length (concatenate_segments s) + List.length conc)%nat
  /\ config s' = config s
  /\ result s' = result s
  /\ writes (trace s') = writes (trace s).
Proof.
  intros Hcfg Hfolder folder mix conc s'.
  destruct (load_audio_files_spec env c s Hcfg Hfolder)
    as (s1 & Hrun & Hc & Hr & Hmix & Hconc & _ & _).
  pose proof (wn_load_audio_files env s) as Hw.
  subst s'. rewrite Hrun in *. simpl fst. simpl snd in *.
  fold folder mix in Hmix. fold folder conc in Hconc.
  repeat split; try assumption.
  - apply decoded_in.
  - apply decoded_in.
  - rewrite Hmix, length_app.
    pose proof (decoded_length folder mix). lia.
  - rewrite Hconc, length_app.
    pose proof (decoded_length folder conc). lia.
Qed.

(** X3. With the input folder in place and a fresh pipeline, if every file
    the configuration names fails to decode, the run ends as a run without
    files: it logs that nothing was loaded and returns normally, having set
    no result and written nothing. *)
Theorem no_file_decodes_nothing_loaded (c : Config) (s : Pipeline) :
  config s = PyDict c ->
  path_exists env (dict_get (input_folder c) "input_audio"%string) = true ->
  (forall which, segments which s = []) ->
  (forall audio_file,
     In audio_file (dict_get (mix_files c) [] ++
                    dict_get (concatenate_files c) [] ++
                    dict_get (audio_files c) []) ->
     exists e,
       from_file env
         (path_join (dict_get (input_folder c) "input_audio"%string) audio_file)
       = Raises e) ->
  let s1 := snd (load_audio_files env (banner s)) in
  run env s = (Returns tt, record_event (Log ERROR MsgNothingLoaded) s1)
  /\ result s1 = result s
  /\ writes (trace (snd (run env s))) = writes (trace s).
Proof.
  intros Hcfg Hfolder Hfresh Hfail s1.
  destruct (load_audio_files_spec env c (banner s) Hcfg Hfolder)
    as (s2 & Hrun & _ & Hr & Hmix & Hconc & Haudio & _).
  subst s1. rewrite Hrun. simpl snd.
  assert (Hnone : forall files,
             incl files (dict_get (mix_files c) [] ++
                         dict_get (concatenate_files c) [] ++
                         dict_get (audio_files c) []) ->
             decoded env (dict_get (input_folder c) "input_audio"%string) files
             = []).
  { intros files Hincl. apply decoded_all_fail.
    intros f Hf. apply Hfail, Hincl, Hf. }
  rewrite Hnone in Hmix by (apply incl_appl, incl_refl).
  rewrite Hnone in Hconc by (apply incl_appr, incl_appl, incl_refl).
  rewrite Hnone in Haudio.
  2:{ destruct (dict_get (audio_files c) []) as [| f files];
        [apply incl_nil_l |].
      destruct (dict_get (mix_files c) []); [| apply incl_nil_l].
      destruct (dict_get (concatenate_files c) []); [| apply incl_nil_l].
      apply incl_refl. }
  pose proof (Hfresh MixSegments) as Hm0.
  pose proof (Hfresh ConcatenateSegments) as Hk0.
  pose proof (Hfresh AudioSegments) as Ha0.
  simpl in Hm0, Hk0, Ha0, Hmix, Hconc, Haudio.
  rewrite Hm0 in Hmix. rewrite Hk0 in Hconc. rewrite Ha0 in Haudio.
  simpl in Hmix, Hconc, Haudio.
  assert (Hreturns : run env s
                     = (Returns tt, record_event (Log ERROR MsgNothingLoaded) s2)).
  { rewrite run_starts_with_load.
    unfold bind at 1. unfold bind at 1. rewrite Hrun.
    unfold bind at 1, self at 1. rewrite Hmix, Hconc, Haudio. reflexivity. }
  split; [exact Hreturns |]. split; [exact Hr |].
  rewrite Hreturns. simpl snd. rewrite writes_record. simpl.
  rewrite app_nil_r.
  pose proof (wn_load_audio_files env (banner s)) as Hw.
  rewrite Hrun in Hw. simpl snd in Hw. rewrite Hw.
  unfold banner. now rewrite !writes_record, !app_nil_r.
Qed.

End UndecodableFiles.

Lemma loading_keeps_what_decodes_witness :
  let env := Studio.studio EmptyDocument in
  let s := Studio.fresh (PyDict Studio.with_missing) in
  fst (load_audio_files env s) = Returns tt
  /\ mix_segments (snd (load_audio_files env s)) = [Studio.tick; Studio.beep].
Proof.
  intros env s.
  destruct (loading_keeps_what_decodes env Studio.with_missing s
              eq_refl eq_refl)
    as (Hreturns & Hmix & _).
  split; [exact Hreturns | exact Hmix].
Defined.

Lemma no_file_decodes_nothing_loaded_witness :
  let env := Studio.studio EmptyDocument in
  let s := Studio.fresh (PyDict Studio.only_missing) in
  fst (run env s) = Returns tt
  /\ writes (trace (snd (run env s))) = [].
Proof.
  intros env s.
  assert (Hfail : forall audio_file,
             In audio_file ["missing.wav"; "absent.wav"]%string ->
             exists e,
               from_file env (path_join "input_audio" audio_file) = Raises e).
  { intros f [<- | [<- | []]]; eexists; reflexivity. }
  destruct (no_file_decodes_nothing_loaded env Studio.only_missing s
              eq_refl eq_refl
              ltac:(intros which; destruct which; reflexivity) Hfail)
    as (Hrun & _ & Hwrites).
  split; [now rewrite Hrun | exact Hwrites].
Defined.

(* ------------------------------------------------------------------------- *)
(** ** Saving *)

Section Saving.

Variable env : Env.

(** One turn of the export loop: one export call, then a line in the log,
    whether the encoder returned or raised. *)
Lemma save_one_format (audio : AudioSegment) (folder name fmt : string)
    (s : Pipeline) :
  exists l m,
    try_except
      ((if String.eqb fmt "mp3"
        then export_call env audio
               (path_join folder (name ++ "." ++ fmt)%string) "mp3"
               (Some "192k"%string)
        else if String.eqb fmt "wav"
        then export_call env audio
               (path_join folder (name ++ "." ++ fmt)%string) "wav" None
        else export_call env audio
               (path_join folder (name ++ "." ++ fmt)%string) fmt None) ;;
       log INFO (MsgFileSaved (path_join folder (name ++ "." ++ fmt)%string)))
      (fun e => log ERROR (MsgSaveError fmt e)) s
    = (Returns tt,
       record_event (Log l m)
         (record_event (export_event audio folder name fmt) s)).
Proof.
  unfold export_event, try_except, bind, export_call, emit, lift, log, emit.
  destruct (String.eqb_spec fmt "mp3") as [-> | Hmp3].
  - simpl String.eqb. cbv iota.
    destruct (export env audio _ "mp3"%string (Some "192k"%string));
      do 2 eexists; reflexivity.
  - destruct (String.eqb_spec fmt "wav") as [-> | Hwav].
    + destruct (export env audio _ "wav"%string None);
        do 2 eexists; reflexivity.
    + destruct (export env audio _ fmt None); do 2 eexists; reflexivity.
Qed.

(** The whole export loop never raises and makes one call per format. *)
Lemma save_loop_spec (audio : AudioSegment) (folder name : string)
    (formats : list string) :
  forall s, exists s',
    for_each formats (fun fmt =>
      let output_path := path_join folder (name ++ "." ++ fmt)%string in
      try_except
        ((if String.eqb fmt "mp3"
          then export_call env audio output_path "mp3" (Some "192k"%string)
          else if String.eqb fmt "wav"
          then export_call env audio output_path "wav" None
          else export_call env audio output_path fmt None) ;;
         log INFO (MsgFileSaved output_path))
        (fun e => log ERROR (MsgSaveError fmt e))) s
    = (Returns tt, s')
    /\ writes (trace s')
       = writes (trace s) ++ map (export_event audio folder name) formats
    /\ config s' = config s
    /\ result s' = result s.
Proof.
  induction formats as [| fmt formats IH]; intros s.
  - exists s. simpl. rewrite app_nil_r. repeat split.
  - destruct (save_one_format audio folder name fmt s) as (l & m & Hone).
    destruct (IH (record_event (Log l m)
                    (record_event (export_event audio folder name fmt) s)))
      as (s' & Hrest & Hw & Hc & Hr).
    exists s'. split; [| split; [| split]].
    + cbn [for_each]. cbv zeta in Hrest |- *.
      rewrite (bind_returns _ Hone). exact Hrest.
    + rewrite Hw, !writes_record. simpl. rewrite app_nil_r, <- app_assoc.
      reflexivity.
    + rewrite Hc. reflexivity.
    + rewrite Hr. reflexivity.
Qed.

(** What [save_audio] does when the folder exists or can be created. *)
Lemma save_audio_spec (c : Config) (s : Pipeline)
    (audio : AudioSegment) (output_name : string) :
  config s = PyDict c ->
  (path_exists env (dict_get (output_folder c) "output_audio"%string) = false ->
   makedirs env (dict_get (output_folder c) "output_audio"%string)
   = Returns tt) ->
  exists s',
    save_audio env audio output_name s = (Returns tt, s')
    /\ writes (trace s')
       = writes (trace s)
         ++ (if path_exists env
                  (dict_get (output_folder c) "output_audio"%string)
             then []
             else [Makedirs (dict_get (output_folder c) "output_audio"%string)])
         ++ map (export_event audio
                   (dict_get (output_folder c) "output_audio"%string)
                   output_name)
                (dict_get (output_formats c) ["mp3"; "wav"]%string)
    /\ config s' = config s
    /\ result s' = result s.
Proof.
  intros Hcfg Hmk.
  set (folder := dict_get (output_folder c) "output_audio"%string) in *.
  set (formats := dict_get (output_formats c) ["mp3"; "wav"]%string).
  destruct (path_exists env folder) eqn:Hexists.
  - destruct (save_loop_spec audio folder output_name formats s)
      as (s1 & Hloop & Hw & Hc & Hr).
    cbv zeta in Hloop. exists s1. split; [| repeat split; assumption].
    unfold save_audio.
    unfold bind at 1, config_get at 1. rewrite Hcfg. fold folder.
    unfold bind at 1, config_get at 1. rewrite Hcfg. fold formats.
    rewrite Hexists. simpl negb. cbv iota. rewrite bind_ret_l.
    exact Hloop.
  - specialize (Hmk eq_refl).
    destruct (save_loop_spec audio folder output_name formats
                (record_event (Log INFO (MsgOutputFolderCreated folder))
                   (record_event (Makedirs folder) s)))
      as (s1 & Hloop & Hw & Hc & Hr).
    cbv zeta in Hloop. exists s1. split; [| split; [| split; assumption]].
    + unfold save_audio.
      unfold bind at 1, config_get at 1. rewrite Hcfg. fold folder.
      unfold bind at 1, config_get at 1. rewrite Hcfg. fold formats.
      rewrite Hexists. simpl negb. cbv iota.
      unfold bind at 1. unfold bind at 1, emit at 1.
      unfold bind at 1, lift at 1. rewrite Hmk.
      unfold log at 1, emit at 1. exact Hloop.
    + rewrite Hw, !writes_record. simpl. rewrite app_nil_r, <- app_assoc.
      reflexivity.
Qed.

(** X4. [save_audio] makes exactly one export call per configured format, in
    list order, to [output_folder/output_name.format]; the format handed to
    the encoder is the configured one and only ["mp3"] carries a bitrate.  A
    format whose export raises does not stop the following ones, and the
    method returns normally.  The folder is created first exactly when it is
    missing. *)
Theorem save_audio_tries_every_format (c : Config) (s : Pipeline)
    (audio : AudioSegment) (output_name : string) :
  config s = PyDict c ->
  (path_exists env (dict_get (output_folder c) "output_audio"%string) = false ->
   makedirs env (dict_get (output_folder c) "output_audio"%string)
   = Returns tt) ->
  let folder := dict_get (output_folder c) "output_audio"%string in
  let formats := dict_get (output_formats c) ["mp3"; "wav"]%string in
  let s' := snd (save_audio env audio output_name s) in
  fst (save_audio env audio output_name s) = Returns tt
  /\ writes (trace s')
     = writes (trace s)
       ++ (if path_exists env folder then [] else [Makedirs folder])
       ++ map (export_event audio folder output_name) formats
  /\ config s' = config s
  /\ result s' = result s.
Proof.
  intros Hcfg Hmk folder formats s'.
  destruct (save_audio_spec c s audio output_name Hcfg Hmk)
    as (s1 & Hsave & Hw & Hc & Hr).
  subst s'. rewrite Hsave. simpl fst. simpl snd.
  repeat split; assumption.
Qed.

(** X5. When the output folder is missing and cannot be created,
    [save_audio] raises the exception of [os.makedirs] before any export
    call. *)
Theorem save_audio_stops_when_makedirs_fails (c : Config) (s : Pipeline)
    (audio : AudioSegment) (output_name : string) (e : exn) :
  config s = PyDict c ->
  path_exists env (dict_get (output_folder c) "output_audio"%string) = false ->
  makedirs env (dict_get (output_folder c) "output_audio"%string) = Raises e ->
  save_audio env audio output_name s
  = (Raises e,
     record_event
       (Makedirs (dict_get (output_folder c) "output_audio"%string)) s).
Proof.
  intros Hcfg Hexists Hmk.
  unfold save_audio, bind, config_get, emit, lift. rewrite Hcfg, Hexists.
  simpl. rewrite ?Hcfg. simpl. now rewrite Hmk.
Qed.

End Saving.

Lemma save_audio_tries_every_format_witness :
  let env := Studio.locked EmptyDocument in
  let c := mkConfig None (Some "input_audio"%string) None
                    (Some ["mp3"; "ogg"]%string)
                    None None None None None None in
  let s := Studio.fresh (PyDict c) in
  fst (save_audio env Studio.beep "result" s) = Returns tt
  /\ writes (trace (snd (save_audio env Studio.beep "result" s)))
     = [ExportCall Studio.beep "input_audio/result.mp3" "mp3"
                   (Some "192k"%string);
        ExportCall Studio.beep "input_audio/result.ogg" "ogg" None].
Proof.
  intros env c s.
  destruct (save_audio_tries_every_format env c s Studio.beep "result"
              eq_refl ltac:(discriminate))
    as (Hreturns & Hwrites & _).
  split; [exact Hreturns | exact Hwrites].
Defined.

Lemma save_audio_stops_when_makedirs_fails_witness :
  let env := Studio.locked EmptyDocument in
  let s := Studio.fresh (PyDict Studio.empty_config) in
  save_audio env Studio.beep "result" s
  = (Raises (LibraryError "PermissionError"),
     record_event (Makedirs "output_audio") s).
Proof.
  intros env s.
  apply (save_audio_stops_when_makedirs_fails env Studio.empty_config s
           Studio.beep "result" (LibraryError "PermissionError"));
    reflexivity.
Defined.

(* ------------------------------------------------------------------------- *)
(** ** Effects, then output *)

Section EffectsThenOutput.

Variable env : Env.

Lemma wn_effect_step (audio : AudioSegment) (effect : Effect) :
  writes_nothing (effect_step env audio effect).
Proof.
  unfold effect_step, effect_function.
  destruct (e_type effect) as [name |]; [| quiet].
  unfold effect_functions, dict_lookup.
  repeat match goal with
  | |- context [String.eqb name ?k] => destruct (String.eqb name k)
  end;
    unfold apply_volume_effect, apply_speed_effect, apply_fade_effect,
      apply_reverse_effect, apply_normalize_effect, apply_repeat_effect;
    quiet.
Qed.

Lemma wn_effects_loop (effects : list Effect) :
  forall audio, writes_nothing (effects_loop env effects audio).
Proof.
  induction effects as [| effect rest IH]; intros audio; simpl.
  - apply wn_ret.
  - apply wn_bind; [apply wn_effect_step | exact IH].
Qed.

Lemma wn_apply_effects (audio : AudioSegment) :
  writes_nothing (apply_effects env audio).
Proof.
  unfold apply_effects. apply wn_bind; [apply wn_config_get |].
  intros effects. apply wn_effects_loop.
Qed.

(** X6. When the combined result is truthy and an effect of the chain
    raises, the exception leaves [run] before [save_audio] is reached: no
    folder is created and no export call is made. *)
Theorem failing_effect_prevents_output (s s2 s3 : Pipeline)
    (r : AudioSegment) (e : exn) :
  load_and_combine env s = (Returns true, s2) ->
  result s2 = Some r ->
  py_bool r = Returns true ->
  apply_effects env r s2 = (Raises e, s3) ->
  run env s = (Raises e, s3)
  /\ writes (trace s3) = writes (trace s).
Proof.
  intros Hcombined Hresult Htruthy Hfail. split.
  - unfold run. rewrite (bind_returns _ Hcombined).
    unfold effects_and_save, bind, self, lift. rewrite Hresult. simpl.
    rewrite Htruthy. simpl. now rewrite Hfail.
  - pose proof (wn_apply_effects r s2) as Hw. rewrite Hfail in Hw.
    pose proof (wn_load_and_combine env s) as Hw0. rewrite Hcombined in Hw0.
    simpl snd in Hw, Hw0. congruence.
Qed.

(** X10. When the effects turn a truthy combined result into a buffer of zero
    millisecond duration, the run stores that buffer as its result, skips
    [save_audio], logs the closing banner and returns normally: it reports
    success although no output file was written. *)
Theorem silenced_result_is_not_saved (s s2 s3 : Pipeline)
    (r r' : AudioSegment) :
  load_and_combine env s = (Returns true, s2) ->
  result s2 = Some r ->
  py_bool r = Returns true ->
  apply_effects env r s2 = (Returns r', s3) ->
  py_len r' = Returns 0 ->
  run env s = (Returns tt, closing (with_result (Some r') s3))
  /\ writes (trace (closing (with_result (Some r') s3))) = writes (trace s).
Proof.
  intros Hcombined Hresult Htruthy Heffects Hzero. split.
  - unfold run. rewrite (bind_returns _ Hcombined).
    unfold effects_and_save, bind, self, lift. rewrite Hresult. simpl.
    rewrite Htruthy. simpl. rewrite Heffects. simpl.
    unfold py_bool. rewrite Hzero. reflexivity.
  - unfold closing. rewrite !writes_record. simpl. rewrite !app_nil_r.
    pose proof (wn_apply_effects r s2) as Hw. rewrite Heffects in Hw.
    pose proof (wn_load_and_combine env s) as Hw0. rewrite Hcombined in Hw0.
    simpl snd in Hw, Hw0. congruence.
Qed.

Lemma eir_of_quiet {A} (c : M A) :
  writes_nothing c -> exports_its_result c.
Proof.
  intros Hc s. exists []. rewrite app_nil_r. split; [apply Hc |].
  intros a p f b [].
Qed.

Lemma eir_after_quiet {A B} (c : M A) (k : A -> M B) :
  writes_nothing c -> (forall a, exports_its_result (k a)) ->
  exports_its_result (bind c k).
Proof.
  intros Hc Hk s. unfold bind. specialize (Hc s).
  destruct (c s) as [[a | e] s1]; simpl in *.
  - destruct (Hk a s1) as (W & HW & Hin). exists W.
    rewrite HW, Hc. split; [reflexivity | exact Hin].
  - exists []. rewrite app_nil_r. split; [exact Hc |].
    intros a p f b [].
Qed.

(** Whatever [save_audio] does, it keeps [self.result] and every export call
    it makes carries the buffer it was given. *)
Lemma save_audio_shape (audio : AudioSegment) (output_name : string)
    (s : Pipeline) :
  exists o s' W,
    save_audio env audio output_name s = (o, s')
    /\ result s' = result s
    /\ writes (trace s') = writes (trace s) ++ W
    /\ Forall (exports_only audio) W.
Proof.
  assert (Hexports : forall folder formats,
             Forall (exports_only audio)
                    (map (export_event audio folder output_name) formats)).
  { intros folder formats. apply Forall_forall. intros x Hx.
    apply in_map_iff in Hx. destruct Hx as (fmt & <- & _). reflexivity. }
  unfold save_audio.
  unfold bind at 1, config_get at 1.
  destruct (config s) as [| c |] eqn:Hcfg;
    try (exists (Raises AttributeError), s, []; rewrite app_nil_r;
         repeat split; constructor).
  unfold bind at 1, config_get at 1. rewrite Hcfg.
  set (folder := dict_get (output_folder c) "output_audio"%string).
  set (formats := dict_get (output_formats c) ["mp3"; "wav"]%string).
  destruct (path_exists env folder) eqn:Hexists; simpl negb; cbv iota.
  - rewrite bind_ret_l.
    destruct (save_loop_spec env audio folder output_name formats s)
      as (s1 & Hloop & Hw & _ & Hr).
    cbv zeta in Hloop. rewrite Hloop.
    exists (Returns tt), s1, (map (export_event audio folder output_name) formats).
    repeat split; auto.
  - unfold bind at 1. unfold bind at 1, emit at 1.
    unfold bind at 1, lift at 1.
    destruct (makedirs env folder) as [[] | e].
    + unfold log at 1, emit at 1.
      destruct (save_loop_spec env audio folder output_name formats
                  (record_event (Log INFO (MsgOutputFolderCreated folder))
                     (record_event (Makedirs folder) s)))
        as (s1 & Hloop & Hw & _ & Hr).
      cbv zeta in Hloop. rewrite Hloop.
      exists (Returns tt), s1,
        (Makedirs folder :: map (export_event audio folder output_name) formats).
      repeat split.
      * exact Hr.
      * rewrite Hw, !writes_record. simpl. rewrite app_nil_r, <- app_assoc.
        reflexivity.
      * constructor; [exact I | apply Hexports].
    + exists (Raises e), (record_event (Makedirs folder) s), [Makedirs folder].
      repeat split.
      * now rewrite writes_record.
      * constructor; [exact I | constructor].
Qed.

(** The last step of [run] and the closing banner. *)
Lemma eir_save_and_close :
  exports_its_result
    (s <- self ;;
     has_result <- lift (truthy (result s)) ;;
     (if has_result
      then audio <- lift (seg_of AttributeError (result s)) ;;
           output_name <- config_get output_name "result"%string ;;
           save_audio env audio output_name
      else ret tt) ;;
     log INFO MsgBanner ;;
     log INFO MsgFinished ;;
     log INFO MsgBanner).
Proof.
  intros s. unfold bind, self, lift, config_get.
  destruct (truthy (result s)) as [[|] | e] eqn:Htruthy.
  - destruct (result s) as [audio |] eqn:Hres; [| discriminate].
    simpl seg_of. cbv iota.
    destruct (config s) as [| c |];
      try (exists []; rewrite app_nil_r; split;
           [reflexivity | intros a p f b []]).
    destruct (save_audio_shape audio
                (dict_get (output_name c) "result"%string) s)
      as (o & s' & W & Hsave & Hr & Hw & Hall).
    rewrite Hsave. exists W.
    rewrite Forall_forall in Hall.
    destruct o as [[] | e]; simpl.
    + unfold writes in *. rewrite !filter_app. simpl.
      rewrite !app_nil_r. split; [exact Hw |].
      intros a p f b Hin. rewrite Hr. now rewrite (Hall _ Hin).
    + split; [exact Hw |].
      intros a p f b Hin. rewrite Hr. now rewrite (Hall _ Hin).
  - exists []. split; [| intros a p f b []].
    simpl. unfold writes. rewrite !filter_app. simpl.
    now rewrite !app_nil_r.
  - exists []. rewrite app_nil_r. split; [reflexivity | intros a p f b []].
Qed.

(** X15. Whatever the environment and the starting state, every export call
    a run makes carries the buffer [self.result] holds when the run ends:
    the pipeline never exports an intermediate buffer or a loaded file as
    such, and it never exports after the result was changed. *)
Theorem only_final_result_is_exported (s : Pipeline) :
  exists W,
    writes (trace (snd (run env s))) = writes (trace s) ++ W
    /\ forall a p f b,
         In (ExportCall a p f b) W -> result (snd (run env s)) = Some a.
Proof.
  revert s. change (exports_its_result (run env)).
  unfold run. apply eir_after_quiet; [apply wn_load_and_combine |].
  intros [|]; [| apply eir_of_quiet, wn_ret].
  unfold effects_and_save.
  apply eir_after_quiet; [apply wn_self |]. intros s1.
  apply eir_after_quiet; [apply wn_lift |]. intros has_result.
  apply eir_after_quiet; [| intros _; apply eir_save_and_close].
  pose proof wn_apply_effects. destruct has_result; quiet.
Qed.

End EffectsThenOutput.

Lemma failing_effect_prevents_output_witness :
  let c := Studio.beep_then Studio.reverse_effect in
  let env := Studio.studio (MappingDocument c) in
  let s := Studio.fresh (PyDict c) in
  fst (run env s) = Raises (LibraryError "audioop")
  /\ writes (trace (snd (run env s))) = [].
Proof.
  intros c env s.
  destruct (failing_effect_prevents_output env s
              (snd (load_and_combine env s))
              (snd (apply_effects env Studio.beep (snd (load_and_combine env s))))
              Studio.beep (LibraryError "audioop")
              eq_refl eq_refl eq_refl eq_refl)
    as (Hrun & Hwrites).
  rewrite Hrun. split; [reflexivity | exact Hwrites].
Defined.

Lemma silenced_result_is_not_saved_witness :
  let c := Studio.beep_then (Studio.repeat_effect 0) in
  let env := Studio.studio (MappingDocument c) in
  let s := Studio.fresh (PyDict c) in
  fst (run env s) = Returns tt
  /\ result (snd (run env s)) = Some (mkSegment [] 1 8000 1)
  /\ writes (trace (snd (run env s))) = [].
Proof.
  intros c env s.
  destruct (silenced_result_is_not_saved env s
              (snd (load_and_combine env s))
              (snd (apply_effects env Studio.beep (snd (load_and_combine env s))))
              Studio.beep (mkSegment [] 1 8000 1)
              eq_refl eq_refl eq_refl eq_refl eq_refl)
    as (Hrun & Hwrites).
  rewrite Hrun. split; [reflexivity |]. split; [reflexivity | exact Hwrites].
Defined.

(* ------------------------------------------------------------------------- *)
(** ** Whole runs *)

Section WholeRuns.

Variable env : Env.

(** X13. When the legacy list loaded a single buffer, that buffer is the
    result of the combination whatever [combine_method] says, and neither
    [overlay] nor any format conversion of the library is called. *)
Theorem legacy_single_buffer_is_result (c : Config) (s : Pipeline)
    (audio : AudioSegment) :
  config s = PyDict c ->
  audio_segments s = [audio] ->
  combine_legacy env s
  = (Returns tt,
     with_result (Some audio)
       (record_event
          (Log INFO
             (if String.eqb (dict_get (combine_method c) "concatenate"%string)
                            "mix"
              then MsgMixing 1 else MsgConcatenating 1)) s)).
Proof.
  intros Hcfg Hsegs.
  unfold combine_legacy, bind, config_get. rewrite Hcfg.
  destruct (String.eqb _ "mix");
    unfold mix_audio_files, concatenate_audio_files, bind, self, log, emit,
      lift, ret, set_result;
    rewrite Hsegs; reflexivity.
Qed.

(** X14. Over buffers of one sample format, [concatenate_audio_files]
    returns the bytes of the buffers one after the other, in list order, in
    the format of the first, and calls no conversion of the library. *)
Theorem concatenation_keeps_bytes_in_order (first : AudioSegment)
    (rest : list AudioSegment) (s : Pipeline) :
  Forall (same_format first) rest ->
  audio_segments s = first :: rest ->
  fst (concatenate_audio_files env s)
  = Returns (Some (mkSegment (List.concat (map _data (first :: rest)))
                             (sample_width first) (frame_rate first)
                             (channels first))).
Proof.
  intros Hsame Hsegs.
  unfold concatenate_audio_files, bind, self, log, emit, lift, ret.
  rewrite Hsegs, (concatenate_loop_same_format env rest first Hsame).
  reflexivity.
Qed.




End WholeRuns.

Lemma legacy_single_buffer_is_result_witness :
  let env := Studio.studio EmptyDocument in
  let s := mkPipeline (PyDict Studio.empty_config) [Studio.beep] [] [] None [] in
  result (snd (combine_legacy env s)) = Some Studio.beep.
Proof.
  intros env s.
  now rewrite (legacy_single_buffer_is_result env Studio.empty_config s
                 Studio.beep eq_refl eq_refl).
Defined.

Lemma concatenation_keeps_bytes_in_order_witness :
  let env := Studio.studio EmptyDocument in
  let s := mkPipeline PyNone [Studio.tick; Studio.beep] [] [] None [] in
  fst (concatenate_audio_files env s)
  = Returns (Some (mkSegment (_data Studio.tick ++ _data Studio.beep)
                             1 8000 1)).
Proof.
  intros env s.
  apply (concatenation_keeps_bytes_in_order env Studio.tick [Studio.beep] s).
  - repeat constructor.
  - reflexivity.
Defined.

